(** * Donation ledger of poor-kids-donation: fees, receipts, completion, refunds

    A shallow embedding of
      - backend/src/models/Donation.ts      (schema hooks, virtuals and document
                                             methods),
      - backend/src/models/Campaign.ts      (incrementDonorCount, the progress
                                             and expiry methods, milestones and
                                             the pre-save hook),
      - backend/src/controllers/donationController.ts
                                            (createDonation, updateDonationStatus,
                                             refundDonation, getDonation and the
                                             listing controllers),
    followed by the properties of the donation specification that concern them
    and by further properties of the same operations.

    Conventions.
      - A JavaScript number is an exact rational ([Q]); [Math.round] rounds
        to the nearest integer with ties towards plus infinity.  Module
        [Binary64] has the fee calculator on IEEE-754 doubles; it is run at
        the amounts of the examples, to see that the figures quoted there
        are the ones the engine computes.  Where a product falls exactly on
        half a cent the doubles may round the other way; no property below
        depends on the value of a fee at such a tie.
      - The three MongoDB collections are finite maps from object ids to
        documents.  Every awaited database call is one constructor of the
        program type [Prog]; programs are run against a store by [run], and
        [visible] lists the stores that other requests can observe while a
        program runs.
      - [new Date()], [Math.random()] and the id of a new document are inputs
        ([Env]).
      - Schema validators (min, max, enum, required) are not part of the
        model; the unique index on [receipt.receiptNumber] is. *)

From Stdlib Require Import QArith Qround ZArith NArith Ascii String Lia Lqa.
From Stdlib Require Import Sorted.
From Corelib Require PrimFloat.
From Stdlib Require Uint63.
From stdpp Require Import gmap strings list.

Local Open Scope Q_scope.

(** ** Numbers *)

(** [Math.round(x)]: the integer nearest to [x], ties going up. *)
Definition Math_round (x : Q) : Z := Qfloor (x + 0.5).

(** The idiom [Math.round(x * 100) / 100] of Donation.ts. *)
Definition round_cents (x : Q) : Q := inject_Z (Math_round (x * 100)) / 100.

(** A number with at most two decimals. *)
Definition whole_cents (x : Q) : Prop := exists c : Z, x == inject_Z c / 100.

(** ** Fee calculator (Donation.ts, calculateFees) *)

Inductive PaymentMethod : Set :=
| stripe
| paypal
| bank_transfer
| crypto
| other_method (tag : string).   (* reaches the [default:] arm of the switch *)

Record Fees : Set := mkFees {
  platformFee : Q;
  paymentProcessingFee : Q;
  totalFees : Q
}.

Definition platformFee_of (amount : Q) : Q :=
  round_cents (amount * 0.025).

Definition paymentProcessingFee_of (amount : Q) (m : PaymentMethod) : Q :=
  match m with
  | stripe => round_cents (amount * 0.029 + 0.30)
  | paypal => round_cents (amount * 0.0349 + 0.49)
  | bank_transfer => 1.00
  | crypto => round_cents (amount * 0.01)
  | other_method _ => 0
  end.

(** [calculateFees] writes [fees] and [netAmount] of the document; here it
    returns the two values it writes. *)
Definition calculateFees (amount : Q) (m : PaymentMethod) : Fees * Q :=
  let pf := platformFee_of amount in
  let pr := paymentProcessingFee_of amount m in
  let tot := round_cents (pf + pr) in
  let net := round_cents (amount - tot) in
  (mkFees pf pr tot, net).

(** ** Strings and dates *)

Local Open Scope string_scope.

(** [String(n)] for a non-negative integer: its decimal digits. *)
Definition digit_char (d : N) : ascii := ascii_of_N (48 + d).

Fixpoint String_of_N_go (fuel : nat) (n : N) (acc : string) : string :=
  match fuel with
  | O => acc
  | S fuel' =>
      let acc' := String (digit_char (n mod 10)) acc in
      if (n / 10 =? 0)%N then acc' else String_of_N_go fuel' (n / 10) acc'
  end.

Definition String_of_N (n : N) : string :=
  String_of_N_go (S (N.size_nat n)) n "".

Fixpoint repeat_char (c : ascii) (k : nat) : string :=
  match k with
  | O => ""
  | S k' => String c (repeat_char c k')
  end.

(** [s.padStart(n, c)] for a one-character pad. *)
Definition padStart (n : nat) (c : ascii) (s : string) : string :=
  repeat_char c (n - String.length s) +:+ s.

Definition toUpperCase_char (c : ascii) : ascii :=
  let n := N_of_ascii c in
  if ((97 <=? n) && (n <=? 122))%N then ascii_of_N (n - 32) else c.

Fixpoint toUpperCase (s : string) : string :=
  match s with
  | EmptyString => EmptyString
  | String c s' => String (toUpperCase_char c) (toUpperCase s')
  end.

(** [s.substr(start, len)] is [String.substring start len s]: it stops at
    the end of [s] when fewer than [len] characters are left. *)
Definition substr (start len : nat) (s : string) : string :=
  String.substring start len s.

(** The parts of a JavaScript [Date] that the code reads. *)
Record Date : Set := mkDate {
  getFullYear : N;
  getMonth : N;          (* 0 .. 11 *)
  getDate : N;           (* 1 .. 31 *)
  getTime : N            (* milliseconds, as returned by Date.now() *)
}.

(** What a request reads from its environment. *)
Record Env : Set := mkEnv {
  now : Date;                 (* new Date() and Date.now() *)
  random36 : string;          (* Math.random().toString(36), e.g. 0.4fzyo82mvyr *)
  newObjectId : N             (* the _id given to a document made by create *)
}.

(** ** Receipt sequencer (Donation.ts, generateReceiptNumber) *)

Definition generateReceiptNumber (env : Env) : string :=
  let date := now env in
  let year := String_of_N (getFullYear date) in
  let month := padStart 2 "0" (String_of_N (getMonth date + 1)) in
  let day := padStart 2 "0" (String_of_N (getDate date)) in
  let random := toUpperCase (substr 2 6 (random36 env)) in
  "PKD-" +:+ year +:+ month +:+ day +:+ "-" +:+ random.

(** ** Documents *)

Abbreviation ObjectId := N.

Inductive DonationStatus : Set :=
| pending | processing | completed | failed | refunded | cancelled.

Inductive CampaignStatus : Set :=
| campaign_draft | campaign_active | campaign_paused
| campaign_completed | campaign_cancelled.

Record Dedication : Set := mkDedication {
  dedication_name : string;
  dedication_email : option string;
  dedication_message : option string
}.

Record Receipt : Set := mkReceipt {
  receiptNumber : string;       (* the empty string when not yet generated *)
  emailSent : bool
}.

Record Refund : Set := mkRefund {
  refundId : string;
  refundAmount : Q;
  refundReason : string;
  refundedAt : Date;
  refundedBy : ObjectId
}.

(** The IDonation fields that the modelled code reads or writes.  [donor] is
    optional because createDonation sets it only for an authenticated
    request and the controller tests it before use.  [refundNote] holds the
    three properties (refundReason, refundedAt, refundedBy) that
    refundDonation sets directly on the document. *)
Record Donation : Set := mkDonation {
  _id : ObjectId;
  donor : option ObjectId;
  campaign : ObjectId;
  amount : Q;
  currency : string;
  paymentMethod : PaymentMethod;
  paymentIntentId : option string;
  transactionId : option string;
  status : DonationStatus;
  isAnonymous : bool;
  message : string;
  dedicatedTo : option Dedication;
  fees : Fees;
  netAmount : Q;
  receipt : Receipt;
  refund : option Refund;
  failureReason : option string;          (* metadata.failureReason *)
  completedAt : option Date;
  createdAt : Date;
  refundNote : option (string * Date * option ObjectId)
}.

Definition set_status (s : DonationStatus) (d : Donation) : Donation :=
  mkDonation (_id d) (donor d) (campaign d) (amount d) (currency d)
    (paymentMethod d) (paymentIntentId d) (transactionId d) s (isAnonymous d)
    (message d) (dedicatedTo d) (fees d) (netAmount d) (receipt d) (refund d)
    (failureReason d) (completedAt d) (createdAt d) (refundNote d).

Definition set_paymentIntentId (p : option string) (d : Donation) : Donation :=
  mkDonation (_id d) (donor d) (campaign d) (amount d) (currency d)
    (paymentMethod d) p (transactionId d) (status d) (isAnonymous d)
    (message d) (dedicatedTo d) (fees d) (netAmount d) (receipt d) (refund d)
    (failureReason d) (completedAt d) (createdAt d) (refundNote d).

Definition set_transactionId (t : option string) (d : Donation) : Donation :=
  mkDonation (_id d) (donor d) (campaign d) (amount d) (currency d)
    (paymentMethod d) (paymentIntentId d) t (status d) (isAnonymous d)
    (message d) (dedicatedTo d) (fees d) (netAmount d) (receipt d) (refund d)
    (failureReason d) (completedAt d) (createdAt d) (refundNote d).

Definition set_fees (f : Fees) (n : Q) (d : Donation) : Donation :=
  mkDonation (_id d) (donor d) (campaign d) (amount d) (currency d)
    (paymentMethod d) (paymentIntentId d) (transactionId d) (status d)
    (isAnonymous d) (message d) (dedicatedTo d) f n (receipt d) (refund d)
    (failureReason d) (completedAt d) (createdAt d) (refundNote d).

Definition set_receiptNumber (r : string) (d : Donation) : Donation :=
  mkDonation (_id d) (donor d) (campaign d) (amount d) (currency d)
    (paymentMethod d) (paymentIntentId d) (transactionId d) (status d)
    (isAnonymous d) (message d) (dedicatedTo d) (fees d) (netAmount d)
    (mkReceipt r (emailSent (receipt d))) (refund d)
    (failureReason d) (completedAt d) (createdAt d) (refundNote d).

Definition set_refund (r : option Refund) (d : Donation) : Donation :=
  mkDonation (_id d) (donor d) (campaign d) (amount d) (currency d)
    (paymentMethod d) (paymentIntentId d) (transactionId d) (status d)
    (isAnonymous d) (message d) (dedicatedTo d) (fees d) (netAmount d)
    (receipt d) r (failureReason d) (completedAt d) (createdAt d) (refundNote d).

Definition set_failureReason (r : option string) (d : Donation) : Donation :=
  mkDonation (_id d) (donor d) (campaign d) (amount d) (currency d)
    (paymentMethod d) (paymentIntentId d) (transactionId d) (status d)
    (isAnonymous d) (message d) (dedicatedTo d) (fees d) (netAmount d)
    (receipt d) (refund d) r (completedAt d) (createdAt d) (refundNote d).

Definition set_completedAt (t : option Date) (d : Donation) : Donation :=
  mkDonation (_id d) (donor d) (campaign d) (amount d) (currency d)
    (paymentMethod d) (paymentIntentId d) (transactionId d) (status d)
    (isAnonymous d) (message d) (dedicatedTo d) (fees d) (netAmount d)
    (receipt d) (refund d) (failureReason d) t (createdAt d) (refundNote d).

Definition set_refundNote (n : option (string * Date * option ObjectId))
    (d : Donation) : Donation :=
  mkDonation (_id d) (donor d) (campaign d) (amount d) (currency d)
    (paymentMethod d) (paymentIntentId d) (transactionId d) (status d)
    (isAnonymous d) (message d) (dedicatedTo d) (fees d) (netAmount d)
    (receipt d) (refund d) (failureReason d) (completedAt d) (createdAt d) n.

Record Campaign : Set := mkCampaign {
  goalAmount : Q;
  currentAmount : Q;
  donorCount : Z;
  campaign_status : CampaignStatus;
  campaign_isActive : bool
}.

(** The update document [{ $inc: { currentAmount: x } }]. *)
Definition inc_currentAmount (x : Q) (c : Campaign) : Campaign :=
  mkCampaign (goalAmount c) (currentAmount c + x) (donorCount c)
    (campaign_status c) (campaign_isActive c).

(** The update document [{ $inc: { donorCount: k } }]. *)
Definition inc_donorCount (k : Z) (c : Campaign) : Campaign :=
  mkCampaign (goalAmount c) (currentAmount c) (donorCount c + k)
    (campaign_status c) (campaign_isActive c).

Record DonationStats : Set := mkDonationStats {
  stats_totalDonated : Q;        (* donationStats.totalDonated *)
  stats_donationCount : Z;       (* donationStats.donationCount *)
  lastDonation : option Date
}.

(** A user document.  The schema keeps the counters under [donationStats];
    the controller increments the paths [totalDonated] and [donationCount]
    at the top of the document, which are kept apart here. *)
Record User : Set := mkUser {
  donationStats : DonationStats;
  totalDonated : Q;
  donationCount : Z
}.

(** [{ $inc: { totalDonated: x, donationCount: k } }] (controller). *)
Definition inc_user_totals (x : Q) (k : Z) (u : User) : User :=
  mkUser (donationStats u) (totalDonated u + x) (donationCount u + k)%Z.

(** [{ $inc: { 'donationStats.totalDonated': x, 'donationStats.donationCount': k } }]
    with an optional [$set] of [donationStats.lastDonation] (model methods). *)
Definition inc_user_stats (x : Q) (k : Z) (last : option Date) (u : User) : User :=
  mkUser
    (mkDonationStats (stats_totalDonated (donationStats u) + x)
       (stats_donationCount (donationStats u) + k)%Z
       (match last with Some t => Some t | None => lastDonation (donationStats u) end))
    (totalDonated u) (donationCount u).

(** ** The store and the programs that run against it *)

Record Store : Type := mkStore {
  donations : gmap N Donation;
  campaigns : gmap N Campaign;
  users : gmap N User
}.

Inductive Error : Set :=
| AppError (msg : string) (statusCode : N)
| DuplicateKey (receiptNo : string).     (* E11000 on receipt.receiptNumber *)

Inductive Result (A : Type) : Type :=
| Ok (a : A)
| Err (e : Error).
Arguments Ok {A} a.
Arguments Err {A} e.

(** One constructor per awaited call on a model. *)
Inductive Prog (A : Type) : Type :=
| Ret (a : A)
| Throw (e : Error)
| Donation_findById (id : ObjectId) (k : option Donation -> Prog A)
| Donation_save (d : Donation) (k : Donation -> Prog A)
| Campaign_findById (id : ObjectId) (k : option Campaign -> Prog A)
| Campaign_findByIdAndUpdate (id : ObjectId) (upd : Campaign -> Campaign) (k : Prog A)
| User_findByIdAndUpdate (id : option ObjectId) (upd : User -> User) (k : Prog A).
Arguments Ret {A} a.
Arguments Throw {A} e.
Arguments Donation_findById {A} id k.
Arguments Donation_save {A} d k.
Arguments Campaign_findById {A} id k.
Arguments Campaign_findByIdAndUpdate {A} id upd k.
Arguments User_findByIdAndUpdate {A} id upd k.

Fixpoint bind {A B : Type} (p : Prog A) (f : A -> Prog B) : Prog B :=
  match p with
  | Ret a => f a
  | Throw e => Throw e
  | Donation_findById id k => Donation_findById id (fun o => bind (k o) f)
  | Donation_save d k => Donation_save d (fun d' => bind (k d') f)
  | Campaign_findById id k => Campaign_findById id (fun o => bind (k o) f)
  | Campaign_findByIdAndUpdate id upd k => Campaign_findByIdAndUpdate id upd (bind k f)
  | User_findByIdAndUpdate id upd k => User_findByIdAndUpdate id upd (bind k f)
  end.

#[global] Instance Prog_ret : MRet Prog := @Ret.
#[global] Instance Prog_bind : MBind Prog := fun A B f p => bind p f.

Definition findById (id : ObjectId) : Prog (option Donation) :=
  Donation_findById id Ret.
Definition save (d : Donation) : Prog Donation :=
  Donation_save d Ret.
Definition Campaign_find (id : ObjectId) : Prog (option Campaign) :=
  Campaign_findById id Ret.
Definition Campaign_update (id : ObjectId) (upd : Campaign -> Campaign) : Prog unit :=
  Campaign_findByIdAndUpdate id upd (Ret tt).
Definition User_update (id : option ObjectId) (upd : User -> User) : Prog unit :=
  User_findByIdAndUpdate id upd (Ret tt).

(** ** Saving a donation (Donation.ts, pre('save') hook and unique index) *)

(** JavaScript truthiness of an optional string. *)
Definition truthy (o : option string) : bool :=
  match o with
  | Some s => negb (String.eqb s "")
  | None => false
  end.

(** The pre-save hook: a missing receipt number is generated, and fees are
    calculated when [fees.totalFees === 0]. *)
Definition pre_save (env : Env) (this : Donation) : Donation :=
  let this :=
    if String.eqb (receiptNumber (receipt this)) ""
    then set_receiptNumber (generateReceiptNumber env) this
    else this in
  if Qeq_bool (totalFees (fees this)) 0
  then let '(f, n) := calculateFees (amount this) (paymentMethod this) in
       set_fees f n this
  else this.

(** The unique index on [receipt.receiptNumber] admits a write of receipt
    number [r] for document [self] when no other document holds [r]. *)
Definition index_admits (r : string) (self : N) (m : gmap N Donation) : bool :=
  bool_decide (map_Forall (fun i d => i = self \/ receiptNumber (receipt d) <> r) m).

Definition with_donations (m : gmap N Donation) (st : Store) : Store :=
  mkStore m (campaigns st) (users st).
Definition with_campaigns (m : gmap N Campaign) (st : Store) : Store :=
  mkStore (donations st) m (users st).
Definition with_users (m : gmap N User) (st : Store) : Store :=
  mkStore (donations st) (campaigns st) m.

(** The store after one write. [findByIdAndUpdate] on an id that matches no
    document changes nothing and raises nothing. *)
Definition write_donation (d : Donation) (st : Store) : Store :=
  with_donations (<[ _id d := d ]> (donations st)) st.
Definition write_campaign (id : N) (upd : Campaign -> Campaign) (st : Store) : Store :=
  with_campaigns (alter upd id (campaigns st)) st.
Definition write_user (id : option N) (upd : User -> User) (st : Store) : Store :=
  match id with
  | Some u => with_users (alter upd u (users st)) st
  | None => st
  end.

(** Running a program: the final store and the response.  A failing call
    ends the request; the writes made before it stay. *)
Fixpoint run {A : Type} (env : Env) (p : Prog A) (st : Store) : Store * Result A :=
  match p with
  | Ret a => (st, Ok a)
  | Throw e => (st, Err e)
  | Donation_findById id k => run env (k (donations st !! id)) st
  | Donation_save d k =>
      let d' := pre_save env d in
      if index_admits (receiptNumber (receipt d')) (_id d') (donations st)
      then run env (k d') (write_donation d' st)
      else (st, Err (DuplicateKey (receiptNumber (receipt d'))))
  | Campaign_findById id k => run env (k (campaigns st !! id)) st
  | Campaign_findByIdAndUpdate id upd k => run env k (write_campaign id upd st)
  | User_findByIdAndUpdate id upd k => run env k (write_user id upd st)
  end.

(** The stores that exist, one after each write, while the program runs:
    every one of them can be read by a concurrent request. *)
Fixpoint visible {A : Type} (env : Env) (p : Prog A) (st : Store) : list Store :=
  match p with
  | Ret _ => []
  | Throw _ => []
  | Donation_findById id k => visible env (k (donations st !! id)) st
  | Donation_save d k =>
      let d' := pre_save env d in
      if index_admits (receiptNumber (receipt d')) (_id d') (donations st)
      then write_donation d' st :: visible env (k d') (write_donation d' st)
      else []
  | Campaign_findById id k => visible env (k (campaigns st !! id)) st
  | Campaign_findByIdAndUpdate id upd k =>
      write_campaign id upd st :: visible env k (write_campaign id upd st)
  | User_findByIdAndUpdate id upd k =>
      write_user id upd st :: visible env k (write_user id upd st)
  end.

(** ** Document methods (Donation.ts, Campaign.ts) *)

Definition markAsCompleted (env : Env) (this : Donation) : Prog Donation :=
  let this := set_status completed this in
  Campaign_update (campaign this) (inc_currentAmount (netAmount this));;
  User_update (donor this) (inc_user_stats (amount this) 1 (Some (now env)));;
  save this.

Definition markAsFailed (this : Donation) (reason : option string) : Prog Donation :=
  let this := set_status failed this in
  let this := if truthy reason then set_failureReason reason this else this in
  save this.

Definition processRefund (env : Env) (this : Donation)
    (amount : Q) (reason : string) (refundedBy : ObjectId) : Prog Donation :=
  let this := set_status refunded this in
  let this :=
    set_refund
      (Some (mkRefund ("refund_" +:+ String_of_N (getTime (now env)))
               amount reason (now env) refundedBy)) this in
  Campaign_update (campaign this) (inc_currentAmount (- amount));;
  User_update (donor this) (inc_user_stats (- amount) (-1) None);;
  save this.

(** Campaign.ts, incrementDonorCount: [this.updateOne({ $inc: { donorCount: 1 } })]. *)
Definition incrementDonorCount (this_id : ObjectId) : Prog unit :=
  Campaign_update this_id (inc_donorCount 1).

(** ** Controllers (donationController.ts) *)

#[global] Instance DonationStatus_eq_dec : EqDecision DonationStatus.
Proof. solve_decision. Defined.

#[global] Instance CampaignStatus_eq_dec : EqDecision CampaignStatus.
Proof. solve_decision. Defined.

(** The request of createDonation: its body and the authenticated user.
    The two [populate] calls and the log lines of the controllers only read;
    they are left out. *)
Record CreateRequest : Set := mkCreateRequest {
  create_campaignId : ObjectId;
  create_amount : Q;
  create_isAnonymous : option bool;
  create_message : option string;
  create_paymentMethod : option PaymentMethod;
  create_user : option ObjectId
}.

(** [new Donation(donationData)] with the schema defaults for the paths the
    controller leaves out. *)
Definition new_Donation (env : Env) (req : CreateRequest) : Donation :=
  {| _id := newObjectId env;
     donor := create_user req;
     campaign := create_campaignId req;
     amount := create_amount req;
     currency := "USD";
     paymentMethod := default stripe (create_paymentMethod req);
     paymentIntentId := None;
     transactionId := None;
     status := pending;
     isAnonymous := default false (create_isAnonymous req);
     message := default "" (create_message req);
     dedicatedTo := None;
     fees := mkFees 0 0 0;
     netAmount := 0;
     receipt := mkReceipt "" false;
     refund := None;
     failureReason := None;
     completedAt := None;
     createdAt := now env;
     refundNote := None |}.

Definition createDonation (env : Env) (req : CreateRequest) : Prog Donation :=
  o ← Campaign_find (create_campaignId req);
  match o with
  | None => Throw (AppError "Campaign not found" 404)
  | Some c =>
      if negb (campaign_isActive c)
         || negb (bool_decide (campaign_status c = campaign_active))
      then Throw (AppError "Campaign is not accepting donations" 400)
      else save (new_Donation env req)
  end.

(** The request of updateDonationStatus. *)
Record StatusRequest : Set := mkStatusRequest {
  status_id : ObjectId;                       (* req.params.id *)
  body_status : DonationStatus;
  body_paymentIntentId : option string;
  body_transactionId : option string
}.

Definition updateDonationStatus (env : Env) (req : StatusRequest) : Prog Donation :=
  o ← findById (status_id req);
  match o with
  | None => Throw (AppError "Donation not found" 404)
  | Some donation =>
      let donation := set_status (body_status req) donation in
      let donation :=
        if truthy (body_paymentIntentId req)
        then set_paymentIntentId (body_paymentIntentId req) donation
        else donation in
      let donation :=
        if truthy (body_transactionId req)
        then set_transactionId (body_transactionId req) donation
        else donation in
      let is_completed := bool_decide (body_status req = completed) in
      let donation :=
        if is_completed then set_completedAt (Some (now env)) donation
        else donation in
      (if is_completed
       then Campaign_update (campaign donation) (inc_currentAmount (amount donation));;
            match donor donation with
            | Some u => User_update (Some u) (inc_user_totals (amount donation) 1)
            | None => Ret tt
            end
       else Ret tt);;
      save donation
  end.

(** The request of refundDonation: the body carries a reason and no amount. *)
Record RefundRequest : Set := mkRefundRequest {
  refund_id : ObjectId;                       (* req.params.id *)
  body_reason : string;
  refund_user : option ObjectId               (* req.user?._id *)
}.

Definition refundDonation (env : Env) (req : RefundRequest) : Prog Donation :=
  o ← findById (refund_id req);
  match o with
  | None => Throw (AppError "Donation not found" 404)
  | Some donation =>
      if negb (bool_decide (status donation = completed))
      then Throw (AppError "Only completed donations can be refunded" 400)
      else
        let donation := set_status refunded donation in
        let donation :=
          set_refundNote (Some (body_reason req, now env, refund_user req)) donation in
        donation ← save donation;
        Campaign_update (campaign donation) (inc_currentAmount (- amount donation));;
        match donor donation with
        | Some u => User_update (Some u) (inc_user_totals (- amount donation) (-1))
        | None => Ret tt
        end;;
        Ret donation
  end.

(** ** Public projection (Donation.ts, getPublicInfo) *)

Inductive PublicDonor : Set :=
| Anonymous_literal                           (* the string 'Anonymous' *)
| Donor_ref (d : option ObjectId).

Record PublicInfo : Set := mkPublicInfo {
  public_id : ObjectId;
  public_amount : option Q;                   (* None is null *)
  public_formattedAmount : option string;
  public_donor : PublicDonor;
  public_message : string;
  public_dedicatedTo : option Dedication;
  public_createdAt : Date
}.

Section PublicInfo.
(** [Intl.NumberFormat('en-US', { style: 'currency', currency }).format]. *)
Variable formatCurrency : string -> Q -> string.

(** The virtual [formattedAmount]. *)
Definition formattedAmount (this : Donation) : string :=
  formatCurrency (currency this) (amount this).

Definition getPublicInfo (this : Donation) : PublicInfo :=
  {| public_id := _id this;
     public_amount := if isAnonymous this then None else Some (amount this);
     public_formattedAmount :=
       if isAnonymous this then None else Some (formattedAmount this);
     public_donor :=
       if isAnonymous this then Anonymous_literal else Donor_ref (donor this);
     public_message := message this;
     public_dedicatedTo := dedicatedTo this;
     public_createdAt := createdAt this |}.
End PublicInfo.

(** ** The fee calculator on IEEE-754 doubles

    The same calculateFees with the arithmetic of the JavaScript engine:
    binary64 with round-to-nearest-even.  [Math_round] is valid for
    [0 <= x < 2^51], which covers every amount the schema accepts. *)
Module Binary64.
Import PrimFloat.
Local Open Scope float_scope.
#[local] Set Warnings "-inexact-float".

Definition two52 : float := 4503599627370496.

(** The largest integer not above [x]. *)
Definition Math_floor (x : float) : float :=
  let r := (x + two52) - two52 in
  if PrimFloat.ltb x r then r - 1 else r.

Definition Math_round (x : float) : float :=
  let f := Math_floor x in
  if PrimFloat.leb 0.5 (x - f) then f + 1 else f.

Definition calculateFees (amount : float) (m : PaymentMethod)
  : float * float * float * float :=
  let pf := Math_round (amount * 0.025 * 100) / 100 in
  let pr :=
    match m with
    | stripe => Math_round ((amount * 0.029 + 0.30) * 100) / 100
    | paypal => Math_round ((amount * 0.0349 + 0.49) * 100) / 100
    | bank_transfer => 1.00
    | crypto => Math_round (amount * 0.01 * 100) / 100
    | other_method _ => 0
    end in
  let tot := Math_round ((pf + pr) * 100) / 100 in
  let net := Math_round ((amount - tot) * 100) / 100 in
  (pf, pr, tot, net).

(** The JavaScript test [netAmount + platformFee + processingFee == amount]. *)
Definition fee_identity (amount : float) (m : PaymentMethod) : bool :=
  let '(pf, pr, tot, net) := calculateFees amount m in
  PrimFloat.eqb (net + pf + pr) amount.

(** The double nearest to [k] cents, and the same test in whole cents. *)
Definition of_cents (k : Z) : float :=
  PrimFloat.of_uint63 (Uint63.of_Z k) / 100.

Definition fee_identity_in_cents (m : PaymentMethod) (k : Z) : bool :=
  let '(pf, pr, tot, net) := calculateFees (of_cents k) m in
  PrimFloat.eqb
    (Math_round (net * 100) + Math_round (pf * 100) + Math_round (pr * 100))
    (PrimFloat.of_uint63 (Uint63.of_Z k)).

(** The [n] integers from [lo] on. *)
Fixpoint Z_range (lo : Z) (n : nat) : list Z :=
  match n with
  | O => []
  | S n' => lo :: Z_range (lo + 1) n'
  end.

End Binary64.

(** ** Quantities that the properties speak about *)

(** The sum that the fee identity compares with the gross amount. *)
Definition fee_sum (r : Fees * Q) : Q :=
  snd r + platformFee (fst r) + paymentProcessingFee (fst r).

(** The raised amount and the donor count of a campaign, read from the
    store (zero for a campaign that is not there). *)
Definition raised (st : Store) (cid : ObjectId) : Q :=
  match campaigns st !! cid with
  | Some c => currentAmount c
  | None => 0
  end.

Definition donors_counted (st : Store) (cid : ObjectId) : Z :=
  match campaigns st !! cid with
  | Some c => donorCount c
  | None => 0%Z
  end.

(** The status of a stored donation. *)
Definition status_of (st : Store) (id : ObjectId) : option DonationStatus :=
  status <$> donations st !! id.

(** What the donations collection of MongoDB guarantees: a document is
    stored under its own id, it has a receipt number, and (unique index) no
    two documents have the same receipt number. *)
Definition keyed (m : gmap N Donation) : Prop :=
  map_Forall (fun i d => _id d = i) m.
Definition receipts_present (m : gmap N Donation) : Prop :=
  map_Forall (fun _ d => receiptNumber (receipt d) <> "") m.
Definition receipts_unique (m : gmap N Donation) : Prop :=
  map_Forall (fun i d =>
    map_Forall (fun j d' =>
      i = j \/ receiptNumber (receipt d') <> receiptNumber (receipt d)) m) m.

Definition wf_store (st : Store) : Prop :=
  keyed (donations st) /\ receipts_present (donations st)
  /\ receipts_unique (donations st).

#[global] Instance wf_store_dec (st : Store) : Decision (wf_store st).
Proof. unfold wf_store, keyed, receipts_present, receipts_unique. apply _. Defined.

(** The donor has a completed donation to the campaign in the store. *)
Definition has_completed_donation (st : Store) (u cid : ObjectId) : Prop :=
  exists (i : N) (d : Donation),
    donations st !! i = Some d /\ status d = completed
    /\ donor d = Some u /\ campaign d = cid.

(** ** Scenarios *)

(** 15 January 2024; the random draw prints as 0.4fzyo82mvyr. *)
Definition env0 : Env :=
  mkEnv (mkDate 2024 0 15 1705312800000) "0.4fzyo82mvyr" 43.

(** Scenario 1 of the specification: 100.00 USD by card, pending. *)
Definition donation42 : Donation :=
  {| _id := 42; donor := Some 7%N; campaign := 1%N; amount := 100;
     currency := "USD"; paymentMethod := stripe;
     paymentIntentId := Some "pi_1"; transactionId := None;
     status := pending; isAnonymous := false; message := "";
     dedicatedTo := None;
     fees := mkFees 2.50 3.20 5.70; netAmount := 94.30;
     receipt := mkReceipt "PKD-20240110-ABC123" false; refund := None;
     failureReason := None; completedAt := None;
     createdAt := mkDate 2024 0 10 1704880800000; refundNote := None |}.

Definition campaign1 : Campaign := mkCampaign 1000 500 0 campaign_active true.
Definition user7 : User := mkUser (mkDonationStats 0 0 None) 0 0.

(** One pending donation of donor 7 to campaign 1, which has raised 500. *)
Definition store0 : Store :=
  mkStore {[ 42%N := donation42 ]} {[ 1%N := campaign1 ]} {[ 7%N := user7 ]}.

(** The payment event for donation 42, with its payment reference. *)
Definition complete42 : StatusRequest :=
  mkStatusRequest 42 completed (Some "pi_1") None.

(** The same donation completed, and credited with its net amount. *)
Definition donation42_completed : Donation := set_status completed donation42.
Definition store1 : Store :=
  mkStore {[ 42%N := donation42_completed ]}
          {[ 1%N := mkCampaign 1000 594.30 0 campaign_active true ]}
          {[ 7%N := mkUser (mkDonationStats 100 1 None) 0 0 ]}.

(** The document that updateDonationStatus hands to [save]: the stored
    document after the assignments of the controller. *)
Definition status_update_document (env : Env) (req : StatusRequest)
    (donation : Donation) : Donation :=
  let donation := set_status (body_status req) donation in
  let donation :=
    if truthy (body_paymentIntentId req)
    then set_paymentIntentId (body_paymentIntentId req) donation
    else donation in
  let donation :=
    if truthy (body_transactionId req)
    then set_transactionId (body_transactionId req) donation
    else donation in
  if bool_decide (body_status req = completed)
  then set_completedAt (Some (now env)) donation
  else donation.

(** The document that processRefund hands to [save]. *)
Definition refund_document (env : Env) (this : Donation)
    (amount : Q) (reason : string) (refundedBy : ObjectId) : Donation :=
  set_refund
    (Some (mkRefund ("refund_" +:+ String_of_N (getTime (now env)))
             amount reason (now env) refundedBy))
    (set_status refunded this).

(** Scenario 1 from its start: campaign 1 has raised 500 and has no
    donation yet; donor 7 gives 100.00 by card. *)
Definition store_fresh : Store :=
  mkStore ∅ {[ 1%N := campaign1 ]} {[ 7%N := user7 ]}.

Definition create100 : CreateRequest :=
  mkCreateRequest 1 100 None None (Some stripe) (Some 7%N).

(** The store after the donation was created (its id is 43), and the
    payment event that completes it. *)
Definition store_created : Store :=
  fst (run env0 (createDonation env0 create100) store_fresh).

Definition complete43 : StatusRequest :=
  mkStatusRequest 43 completed (Some "pi_1") None.

(** The document created in scenario 1. *)
Definition donation43 : Donation := pre_save env0 (new_Donation env0 create100).

(** An administrator. *)
Definition admin9 : ObjectId := 9%N.

(** A status update that sends donation 42 back to pending. *)
Definition to_pending42 : StatusRequest :=
  mkStatusRequest 42 pending None None.






(** The same donation with another amount and another donor. *)
Definition with_amount_and_donor (a : Q) (u : option ObjectId) (d : Donation) : Donation :=
  mkDonation (_id d) u (campaign d) a (currency d)
    (paymentMethod d) (paymentIntentId d) (transactionId d) (status d)
    (isAnonymous d) (message d) (dedicatedTo d) (fees d) (netAmount d)
    (receipt d) (refund d) (failureReason d) (completedAt d) (createdAt d)
    (refundNote d).

Definition set_isAnonymous (b : bool) (d : Donation) : Donation :=
  mkDonation (_id d) (donor d) (campaign d) (amount d) (currency d)
    (paymentMethod d) (paymentIntentId d) (transactionId d) (status d)
    b (message d) (dedicatedTo d) (fees d) (netAmount d)
    (receipt d) (refund d) (failureReason d) (completedAt d) (createdAt d)
    (refundNote d).

(** Donation 42 given anonymously, and a currency format for the examples:
    the currency code followed by the number of whole units. *)
Definition anonymous42 : Donation := set_isAnonymous true donation42.

Definition format_code_and_units (cur : string) (a : Q) : string :=
  cur +:+ " " +:+ String_of_N (Z.to_N (Qfloor a)).

(** * Further operations of the same files *)

(** ** Donation.ts: the virtual [feePercentage] *)

Definition feePercentage (this : Donation) : Q :=
  if Qlt_le_dec 0 (amount this)
  then inject_Z (Math_round (totalFees (fees this) / amount this * 100 * 100)) / 100
  else 0.

(** ** donationController.ts: getDonation *)

(** The answer is the stored document; the two [populate] calls are left
    out as in the other controllers. *)
Definition getDonation (id : ObjectId) : Prog Donation :=
  o ← findById id;
  match o with
  | None => Throw (AppError "Donation not found" 404)
  | Some donation => Ret donation
  end.



(** The fields of a campaign that no donation operation is meant to
    decide: its goal, its status and its active flag. *)
Definition campaign_settings (st : Store) (cid : ObjectId)
  : option (Q * CampaignStatus * bool) :=
  (fun c => (goalAmount c, campaign_status c, campaign_isActive c))
    <$> campaigns st !! cid.

(** Scenario 2 of the specification: a fresh campaign with a goal of 80 and
    two pending donations of 50.00 by card, of two donors. *)
Definition donation51 : Donation :=
  {| _id := 51; donor := Some 7%N; campaign := 2%N; amount := 50;
     currency := "USD"; paymentMethod := stripe;
     paymentIntentId := None; transactionId := None;
     status := pending; isAnonymous := false; message := "";
     dedicatedTo := None;
     fees := mkFees 1.25 1.75 3.00; netAmount := 47.00;
     receipt := mkReceipt "PKD-20240110-AAA051" false; refund := None;
     failureReason := None; completedAt := None;
     createdAt := mkDate 2024 0 10 1704880800000; refundNote := None |}.

Definition donation52 : Donation :=
  {| _id := 52; donor := Some 8%N; campaign := 2%N; amount := 50;
     currency := "USD"; paymentMethod := stripe;
     paymentIntentId := None; transactionId := None;
     status := pending; isAnonymous := true; message := "";
     dedicatedTo := None;
     fees := mkFees 1.25 1.75 3.00; netAmount := 47.00;
     receipt := mkReceipt "PKD-20240111-AAA052" false; refund := None;
     failureReason := None; completedAt := None;
     createdAt := mkDate 2024 0 11 1704967200000; refundNote := None |}.

Definition campaign2 : Campaign := mkCampaign 80 0 0 campaign_active true.

Definition store2 : Store :=
  mkStore {[ 51%N := donation51; 52%N := donation52 ]}
          {[ 2%N := campaign2 ]}
          {[ 7%N := user7; 8%N := user7 ]}.

Definition complete51 : StatusRequest := mkStatusRequest 51 completed None None.
Definition complete52 : StatusRequest := mkStatusRequest 52 completed None None.

(** ** Campaign.ts: progress, expiry, milestones and the save hook *)

(** The campaign document with the further fields that its methods read:
    the aggregate fields of [Campaign], the organizer, the end date and the
    milestones. *)
Record Milestone : Set := mkMilestone {
  milestone_amount : Q;
  milestone_description : string;
  achieved : bool;
  achievedAt : option Date
}.

Record CampaignDoc : Set := mkCampaignDoc {
  campaign_fields : Campaign;
  organizer : ObjectId;
  endDate : Date;
  milestones : list Milestone
}.

Definition set_campaign_status (s : CampaignStatus) (this : CampaignDoc) : CampaignDoc :=
  mkCampaignDoc
    (mkCampaign (goalAmount (campaign_fields this)) (currentAmount (campaign_fields this))
       (donorCount (campaign_fields this)) s (campaign_isActive (campaign_fields this)))
    (organizer this) (endDate this) (milestones this).

Definition set_milestones (ms : list Milestone) (this : CampaignDoc) : CampaignDoc :=
  mkCampaignDoc (campaign_fields this) (organizer this) (endDate this) ms.



(** [new Date() > this.endDate]. *)
Definition isExpired (env : Env) (this : CampaignDoc) : bool :=
  (getTime (endDate this) <? getTime (now env))%N.

Definition canReceiveDonations (env : Env) (this : CampaignDoc) : bool :=
  bool_decide (campaign_status (campaign_fields this) = campaign_active)
  && negb (isExpired env this)
  && negb (Qle_bool (goalAmount (campaign_fields this))
             (currentAmount (campaign_fields this)))
  && campaign_isActive (campaign_fields this).

(** The virtual daysRemaining:
    [Math.max(Math.ceil((end - now) / (1000 * 60 * 60 * 24)), 0)]. *)
Definition daysRemaining (env : Env) (this : CampaignDoc) : Z :=
  let diffTime := (Z.of_N (getTime (endDate this)) - Z.of_N (getTime (now env)))%Z in
  let diffDays := Qceiling (inject_Z diffTime / inject_Z (1000 * 60 * 60 * 24)) in
  Z.max diffDays 0.

(** The pre-save hook of the campaign schema. *)
Definition campaign_pre_save (env : Env) (this : CampaignDoc) : CampaignDoc :=
  let this :=
    if Qle_bool (goalAmount (campaign_fields this)) (currentAmount (campaign_fields this))
       && bool_decide (campaign_status (campaign_fields this) = campaign_active)
    then set_campaign_status campaign_completed this
    else this in
  if isExpired env this
     && bool_decide (campaign_status (campaign_fields this) = campaign_active)
  then set_campaign_status campaign_cancelled this
  else this.

(** [Array.prototype.sort] with the comparator [(a, b) => a.amount - b.amount]:
    a stable sort by ascending amount, here by insertion. *)
Fixpoint insert_milestone (x : Milestone) (l : list Milestone) : list Milestone :=
  match l with
  | [] => [x]
  | y :: l' =>
      if Qle_bool (milestone_amount x) (milestone_amount y)
      then x :: y :: l'
      else y :: insert_milestone x l'
  end.

Definition sort_milestones (l : list Milestone) : list Milestone :=
  foldr insert_milestone [] l.

(** addMilestone: push, sort, save.  The result is the document that is
    saved, after the hook. *)
Definition addMilestone (env : Env) (this : CampaignDoc)
    (amount : Q) (description : string) : CampaignDoc :=
  let pushed := (milestones this ++ [mkMilestone amount description false None])%list in
  campaign_pre_save env (set_milestones (sort_milestones pushed) this).

(** checkMilestones: the loop marks every milestone that is not achieved
    and whose amount is reached; the document is saved only when one was
    marked ([None] stands for no save). *)
Definition milestone_due (current : Q) (m : Milestone) : bool :=
  negb (achieved m) && Qle_bool (milestone_amount m) current.

Definition mark_milestone (env : Env) (current : Q) (m : Milestone) : Milestone :=
  if milestone_due current m
  then mkMilestone (milestone_amount m) (milestone_description m) true (Some (now env))
  else m.

Definition checkMilestones (env : Env) (this : CampaignDoc) : option CampaignDoc :=
  let current := currentAmount (campaign_fields this) in
  let updated := existsb (milestone_due current) (milestones this) in
  if updated
  then Some (campaign_pre_save env
               (set_milestones (map (mark_milestone env current) (milestones this)) this))
  else None.

(** A campaign at 99.6 percent of its goal, and its document: organizer 3,
    ending on 1 March 2024, with three milestones of which the first is
    achieved. *)
Definition campaign_nearly_there : Campaign :=
  mkCampaign 1000 996 12 campaign_active true.

Definition campaign_doc1 : CampaignDoc :=
  mkCampaignDoc campaign_nearly_there 3
    (mkDate 2024 2 1 1709251200000)
    [ mkMilestone 250 "books" true (Some (mkDate 2024 0 2 1704189600000));
      mkMilestone 500 "uniforms" false None;
      mkMilestone 1000 "a classroom" false None ].

(** The same document after its end date, seen on 2 March 2024. *)
Definition env_march : Env :=
  mkEnv (mkDate 2024 2 2 1709337600000) "0.7k2m9qx1w" 45.

(** A store with the campaign that is nearly there, under id 3, and a
    request to give to it. *)
Definition store_nearly_there : Store :=
  mkStore ∅ {[ 3%N := campaign_nearly_there ]} {[ 7%N := user7 ]}.

Definition create_for_3 : CreateRequest :=
  mkCreateRequest 3 25 None None None (Some 7%N).

(** The order of milestones by amount, and the milestones of one amount. *)
Definition milestone_le (m m' : Milestone) : Prop :=
  milestone_amount m <= milestone_amount m'.

Definition milestones_of_amount (k : Q) (l : list Milestone) : list Milestone :=
  List.filter (fun m => Qeq_bool (milestone_amount m) k) l.

(** What checkMilestones may do to one milestone, for the raised amount
    [current] at time [t]: an achieved milestone and one that is not
    reached stay as they are; one that is reached and not yet achieved
    becomes achieved at [t]. *)
Definition milestone_checked (t : Date) (current : Q) (m m' : Milestone) : Prop :=
  milestone_amount m' = milestone_amount m
  /\ milestone_description m' = milestone_description m
  /\ (achieved m = true -> m' = m)
  /\ (achieved m = false -> current < milestone_amount m -> m' = m)
  /\ (achieved m = false -> milestone_amount m <= current ->
      achieved m' = true /\ achievedAt m' = Some t).

(** Every milestone whose amount is raised is achieved. *)
Definition milestones_up_to_date (current : Q) (l : list Milestone) : Prop :=
  Forall (fun m => milestone_amount m <= current -> achieved m = true) l.

(** ** donationController.ts: the listing controllers *)

(** [parseInt(s) || dflt]: [None] stands for NaN; NaN and 0 are falsy. *)
Definition or_default (parsed : option Z) (dflt : Z) : Z :=
  match parsed with
  | Some z => if (z =? 0)%Z then dflt else z
  | None => dflt
  end.

Record PageQuery : Set := mkPageQuery {
  query_page : option Z;            (* parseInt(req.query.page) *)
  query_limit : option Z            (* parseInt(req.query.limit) *)
}.

Record Pagination : Set := mkPagination {
  page : Z;
  limit : Z;
  total : Z;
  pages : Z
}.

Definition Math_ceil (x : Q) : Z := Qceiling x.

(** donationRoutes.ts, searchValidation: a page that is given is at least
    1, a limit that is given is between 1 and 100. *)
Definition searchValidation (q : PageQuery) : bool :=
  match query_page q with Some p => (1 <=? p)%Z | None => true end
  && match query_limit q with Some l => (1 <=? l)%Z && (l <=? 100)%Z | None => true end.

(** The cursor calls [.skip(skip).limit(limit)] on the matching documents in
    their order, and the pagination block of the answer; [total] is
    [countDocuments] with the same filter.  The embedding is that of the
    requests that searchValidation admits: [skip] and [limit] are natural
    numbers there. *)
Definition paginate {A : Type} (q : PageQuery) (matching : list A)
  : list A * Pagination :=
  let page := or_default (query_page q) 1 in
  let limit := or_default (query_limit q) 10 in
  let skip := ((page - 1) * limit)%Z in
  let total := Z.of_nat (length matching) in
  (take (Z.to_nat limit) (drop (Z.to_nat skip) matching),
   mkPagination page limit total (Math_ceil (inject_Z total / inject_Z limit))).

(** A query filter on donations: the criteria that the controllers set. *)
Record DonationFilter : Set := mkDonationFilter {
  filter_campaign : option ObjectId;
  filter_donor : option ObjectId;
  filter_status : option DonationStatus;
  filter_isAnonymous : option bool;
  filter_createdAt_gte : option Date;
  filter_createdAt_lte : option Date
}.

Definition criterion {A : Type} (test : A -> bool) (o : option A) : bool :=
  match o with
  | Some x => test x
  | None => true
  end.

Definition matches (f : DonationFilter) (d : Donation) : bool :=
  criterion (fun c => bool_decide (campaign d = c)) (filter_campaign f)
  && criterion (fun u => bool_decide (donor d = Some u)) (filter_donor f)
  && criterion (fun s => bool_decide (status d = s)) (filter_status f)
  && criterion (fun b => bool_decide (isAnonymous d = b)) (filter_isAnonymous f)
  && criterion (fun t => (getTime t <=? getTime (createdAt d))%N) (filter_createdAt_gte f)
  && criterion (fun t => (getTime (createdAt d) <=? getTime t)%N) (filter_createdAt_lte f).

(** [.sort({ createdAt: -1 })]: newest first; documents of the same time
    stay in the order in which the collection gives them. *)
Fixpoint insert_newest_first (x : Donation) (l : list Donation) : list Donation :=
  match l with
  | [] => [x]
  | y :: l' =>
      if (getTime (createdAt y) <=? getTime (createdAt x))%N
      then x :: y :: l'
      else y :: insert_newest_first x l'
  end.

Definition sort_newest_first (l : list Donation) : list Donation :=
  foldr insert_newest_first [] l.

(** [Donation.find(filter).sort({ createdAt: -1 })]. *)
Definition Donation_find (f : DonationFilter) (st : Store) : list Donation :=
  sort_newest_first (List.filter (matches f) (snd <$> map_to_list (donations st))).

(** The query string of getDonations. *)
Record ListRequest : Set := mkListRequest {
  list_paging : PageQuery;
  list_campaign : option ObjectId;
  list_donor : option ObjectId;
  list_status : option DonationStatus;
  list_startDate : option Date;
  list_endDate : option Date
}.

Definition getDonations (req : ListRequest) (st : Store) : list Donation * Pagination :=
  let filter :=
    mkDonationFilter (list_campaign req) (list_donor req) (list_status req) None
      (list_startDate req) (list_endDate req) in
  paginate (list_paging req) (Donation_find filter st).

(** The [$group] stage of the summaries: sum, count and average of the
    gross amounts, and the donors that occur. *)
Definition sum_amounts (l : list Donation) : Q :=
  foldr (fun d acc => amount d + acc) 0 l.

Record Summary : Set := mkSummary {
  summary_totalAmount : Q;
  summary_donationCount : Z;
  summary_averageDonation : Q;
  summary_uniqueDonorCount : Z
}.

(** [summary[0] || { zeros }]: with no matching document the aggregation
    gives no group. *)
Definition summarize (l : list Donation) : Summary :=
  match l with
  | [] => mkSummary 0 0 0 0
  | _ =>
      mkSummary (sum_amounts l) (Z.of_nat (length l))
        (sum_amounts l / inject_Z (Z.of_nat (length l)))
        (Z.of_nat (size (list_to_set (omap donor l) : gset N)))
  end.

Record UserSummary : Set := mkUserSummary {
  user_totalDonated : Q;
  user_donationCount : Z;
  user_averageDonation : Q
}.

Definition summarize_user (l : list Donation) : UserSummary :=
  match l with
  | [] => mkUserSummary 0 0 0
  | _ =>
      mkUserSummary (sum_amounts l) (Z.of_nat (length l))
        (sum_amounts l / inject_Z (Z.of_nat (length l)))
  end.

(** getUserDonations: the donations of the authenticated user, and the
    summary of the completed ones. *)
Definition getUserDonations (user : ObjectId) (q : PageQuery) (st : Store)
  : list Donation * UserSummary * Pagination :=
  let mine := mkDonationFilter None (Some user) None None None None in
  let mine_completed := mkDonationFilter None (Some user) (Some completed) None None None in
  let '(shown, pagination) := paginate q (Donation_find mine st) in
  (shown, summarize_user (Donation_find mine_completed st), pagination).

(** getCampaignDonations: the campaign collection is given with the fields
    this controller reads; [user] is the authenticated user, if any. *)
Definition getCampaignDonations (campaignId : ObjectId) (user : option ObjectId)
    (q : PageQuery) (campaign_docs : gmap N CampaignDoc) (st : Store)
  : Result (list Donation * Summary * Pagination) :=
  match campaign_docs !! campaignId with
  | None => Err (AppError "Campaign not found" 404)
  | Some campaign =>
      let for_all_eyes :=
        match user with
        | None => true
        | Some u => negb (bool_decide (organizer campaign = u))
        end in
      let filter :=
        mkDonationFilter (Some campaignId) None (Some completed)
          (if for_all_eyes then Some false else None) None None in
      let of_campaign :=
        mkDonationFilter (Some campaignId) None (Some completed) None None None in
      let '(shown, pagination) := paginate q (Donation_find filter st) in
      Ok (shown, summarize (Donation_find of_campaign st), pagination)
  end.

(** getRecentDonations: completed, not anonymous, newest first, limited. *)
Definition getRecentDonations (query_limit : option Z) (st : Store) : list Donation :=
  let limit := or_default query_limit 10 in
  let filter := mkDonationFilter None None (Some completed) (Some false) None None in
  take (Z.to_nat limit) (Donation_find filter st).

(** The page [p] of a listing with [lim] documents a page, and the first
    [n] pages one after the other. *)
Definition page_shown {A : Type} (matching : list A) (lim p : Z) : list A :=
  fst (paginate (mkPageQuery (Some p) (Some lim)) matching).

Definition first_pages {A : Type} (matching : list A) (lim : Z) (n : nat) : list A :=
  flat_map (fun k => page_shown matching lim (Z.of_nat (S k))) (seq 0 n).

(** Newest first. *)
Definition newer_or_same (d d' : Donation) : Prop :=
  (getTime (createdAt d') <= getTime (createdAt d))%N.

(** The document is in the donations collection. *)
Definition stored (st : Store) (d : Donation) : Prop :=
  exists i : N, donations st !! i = Some d.

(** A donation as the listings see it. *)
Definition listed (i c u : N) (a : Q) (anon : bool) (s : DonationStatus) (t : N)
  : Donation :=
  set_status s
    (new_Donation (mkEnv (mkDate 2024 1 15 t) "k3x9q2a7" i)
       (mkCreateRequest c a (Some anon) None (Some stripe) (Some u))).

(** Campaign 1 of organizer 3 with three completed donations, the second
    one anonymous, and a pending one. *)
Definition store_listing : Store :=
  mkStore
    (list_to_map
       [(61%N, listed 61 1 7 100 false completed 1705312800000);
        (62%N, listed 62 1 8 40 true completed 1705316400000);
        (63%N, listed 63 1 7 25 false completed 1705320000000);
        (64%N, listed 64 1 9 10 false pending 1705323600000)])
    {[ 1%N := campaign1 ]} ∅.

Definition campaign_docs1 : gmap N CampaignDoc := {[ 1%N := campaign_doc1 ]}.

(** The filters of getCampaignDonations. *)
Definition completed_of (cid : ObjectId) (anon : option bool) : DonationFilter :=
  mkDonationFilter (Some cid) None (Some completed) anon None None.




(** * Properties *)

(** ** Examples *)

Example calculateFees_100_stripe :
  calculateFees 100 stripe = (mkFees 2.50 3.20 5.70, 94.30).
Proof. vm_compute. reflexivity. Qed.

Example generateReceiptNumber_2024_01_15 :
  generateReceiptNumber env0 = "PKD-20240115-4FZYO8".
Proof. vm_compute. reflexivity. Qed.

Module Binary64Facts.
Import PrimFloat.
#[local] Set Warnings "-inexact-float".

(** 100.00 by card on doubles: the doubles nearest to 2.50, 3.20, 5.70 and
    94.30, the figures of the exact model. *)
Example binary64_fees_100_stripe :
  Binary64.calculateFees 100%float stripe = (2.5, 3.2, 5.7, 94.3)%float.
Proof. vm_compute. reflexivity. Qed.

(** 10.004 by card on doubles: 0.25, 0.59, 0.84 and 9.16, again the figures
    of the exact model. *)
Example binary64_fees_10_004_stripe :
  Binary64.calculateFees 10.004%float stripe = (0.25, 0.59, 0.84, 9.16)%float.
Proof. vm_compute. reflexivity. Qed.

(** On doubles the sum of the three parts, as JavaScript adds them, is the
    gross amount for 100.00; it is not for 10.004, and it is not for 5.02
    either, where the parts are 4.44, 0.13 and 0.45 and only the last binary
    digit of the sum differs. *)
Example binary64_fee_identity :
  Binary64.fee_identity 100%float stripe = true
  /\ Binary64.fee_identity 10.004%float stripe = false
  /\ Binary64.calculateFees 5.02%float stripe = (0.13, 0.45, 0.58, 4.44)%float
  /\ Binary64.fee_identity 5.02%float stripe = false.
Proof. repeat split; vm_compute; reflexivity. Qed.

(** Read in whole cents, the three parts computed on doubles add up to the
    gross amount for every amount from 1.00 to 1000.00 and the four methods. *)
Example binary64_fee_identity_in_cents :
  forallb
    (fun m => forallb (Binary64.fee_identity_in_cents m)
                (Binary64.Z_range 100 (N.to_nat 99901)))
    [stripe; paypal; bank_transfer; crypto] = true.
Proof. vm_compute. reflexivity. Qed.

End Binary64Facts.

(** ** Rounding *)

Lemma Math_round_comp (x y : Q) : x == y -> Math_round x = Math_round y.
Proof.
  intros H. unfold Math_round. apply Qfloor_comp. rewrite H. reflexivity.
Qed.

Lemma round_cents_comp (x y : Q) : x == y -> round_cents x = round_cents y.
Proof.
  intros H. unfold round_cents.
  rewrite (Math_round_comp (x * 100) (y * 100)); [reflexivity | now rewrite H].
Qed.

(** An integer is its own rounding. *)
Lemma Math_round_inject_Z (z : Z) : Math_round (inject_Z z) = z.
Proof.
  unfold Math_round, Qfloor, Qplus, inject_Z. simpl.
  symmetry. apply (Z.div_unique _ _ _ 5%Z); lia.
Qed.

(** A whole number of cents is left as it is by the rounding idiom. *)
Lemma round_cents_whole (x : Q) (c : Z) :
  x == inject_Z c / 100 -> round_cents x == inject_Z c / 100.
Proof.
  intros H. unfold round_cents.
  rewrite (Math_round_comp (x * 100) (inject_Z c)).
  - rewrite Math_round_inject_Z. reflexivity.
  - rewrite H. field.
Qed.

Lemma round_cents_is_whole (x : Q) : whole_cents (round_cents x).
Proof. exists (Math_round (x * 100)). reflexivity. Qed.

Lemma whole_cents_plus (x y : Q) :
  whole_cents x -> whole_cents y -> whole_cents (x + y).
Proof.
  intros [a Ha] [b Hb]. exists (a + b)%Z.
  rewrite Ha, Hb, inject_Z_plus. field.
Qed.

Lemma whole_cents_minus (x y : Q) :
  whole_cents x -> whole_cents y -> whole_cents (x - y).
Proof.
  intros [a Ha] [b Hb]. exists (a - b)%Z.
  rewrite Ha, Hb. unfold Z.sub. rewrite inject_Z_plus, inject_Z_opp. field.
Qed.

Lemma round_cents_id (x : Q) : whole_cents x -> round_cents x == x.
Proof.
  intros [c Hc]. rewrite (round_cents_whole x c Hc). now rewrite Hc.
Qed.

Lemma paymentProcessingFee_whole (a : Q) (m : PaymentMethod) :
  whole_cents (paymentProcessingFee_of a m).
Proof.
  destruct m; cbn [paymentProcessingFee_of]; try apply round_cents_is_whole.
  - exists 100%Z. reflexivity.
  - exists 0%Z. reflexivity.
Qed.

(** ** Fee calculator *)

Lemma calculateFees_comp (a1 a2 : Q) (m : PaymentMethod) :
  a1 == a2 -> calculateFees a1 m = calculateFees a2 m.
Proof.
  intros H. unfold calculateFees.
  assert (Hpf : platformFee_of a1 = platformFee_of a2).
  { unfold platformFee_of. apply round_cents_comp. now rewrite H. }
  assert (Hpr : paymentProcessingFee_of a1 m = paymentProcessingFee_of a2 m).
  { destruct m; cbn [paymentProcessingFee_of]; try reflexivity;
      apply round_cents_comp; now rewrite H. }
  rewrite Hpf, Hpr.
  rewrite (round_cents_comp (a1 - _) (a2 - round_cents
    (platformFee_of a2 + paymentProcessingFee_of a2 m))); [reflexivity |].
  now rewrite H.
Qed.

Lemma calculateFees_identity (a : Q) (m : PaymentMethod) :
  whole_cents a -> fee_sum (calculateFees a m) == a.
Proof.
  intros Ha. unfold fee_sum, calculateFees. cbn [fst snd platformFee paymentProcessingFee].
  set (pf := platformFee_of a). set (pr := paymentProcessingFee_of a m).
  assert (Hpf : whole_cents pf) by apply round_cents_is_whole.
  assert (Hpr : whole_cents pr) by apply paymentProcessingFee_whole.
  assert (Htot : round_cents (pf + pr) == pf + pr).
  { apply round_cents_id. now apply whole_cents_plus. }
  assert (Hnet : round_cents (a - round_cents (pf + pr)) == a - (pf + pr)).
  { rewrite (round_cents_comp _ (a - (pf + pr))) by now rewrite Htot.
    apply round_cents_id. apply whole_cents_minus; [assumption |].
    now apply whole_cents_plus. }
  rewrite Hnet. ring.
Qed.

(** C7, as stated, fails: 10.004 by card gives fees 0.25 and 0.59 and a net
    amount of 9.16, which add up to 10.00 and not to 10.004. *)
Lemma fee_identity_fails_below_a_cent :
  calculateFees 10.004 stripe = (mkFees 0.25 0.59 0.84, 9.16)
  /\ fee_sum (calculateFees 10.004 stripe) == 10.00
  /\ ~ fee_sum (calculateFees 10.004 stripe) == 10.004.
Proof.
  split; [vm_compute; reflexivity |].
  split; [vm_compute; reflexivity |].
  vm_compute. discriminate.
Qed.

(** C7 (amended): calculateFees is a function of the value of the gross
    amount and of the payment method alone, and for every gross amount that
    is a whole number of cents and every payment method,
    netAmount + platformFee + processingFee equals the gross amount. *)
Theorem calculateFees_deterministic_and_exact_on_cents :
  (forall (a1 a2 : Q) (m : PaymentMethod),
      a1 == a2 -> calculateFees a1 m = calculateFees a2 m)
  /\ (forall (a : Q) (m : PaymentMethod),
      whole_cents a -> fee_sum (calculateFees a m) == a).
Proof.
  split.
  - exact calculateFees_comp.
  - exact calculateFees_identity.
Qed.

Lemma calculateFees_deterministic_and_exact_on_cents_witness :
  calculateFees (200 # 2) stripe = calculateFees 100 stripe
  /\ fee_sum (calculateFees 100 stripe) == 100.
Proof.
  destruct calculateFees_deterministic_and_exact_on_cents as [Hdet Hid].
  split.
  - apply Hdet. reflexivity.
  - apply Hid. exists 10000%Z. reflexivity.
Defined.

(** ** Public projection *)

Section PublicInfoFacts.
Variable formatCurrency : string -> Q -> string.

(** C10: the public projection of an anonymous donation shows no amount,
    no formatted amount, and the literal donor 'Anonymous'; so two anonymous
    donations that differ only in amount and donor, or more generally that
    agree on the other projected fields (id, message, dedication, creation
    time), have the same public projection. *)
Theorem getPublicInfo_anonymous_hides_amount_and_donor :
  (forall d : Donation,
      isAnonymous d = true ->
      public_amount (getPublicInfo formatCurrency d) = None
      /\ public_formattedAmount (getPublicInfo formatCurrency d) = None
      /\ public_donor (getPublicInfo formatCurrency d) = Anonymous_literal)
  /\ (forall (d : Donation) (a : Q) (u : option ObjectId),
        isAnonymous d = true ->
        getPublicInfo formatCurrency (with_amount_and_donor a u d)
        = getPublicInfo formatCurrency d)
  /\ (forall d1 d2 : Donation,
        isAnonymous d1 = true -> isAnonymous d2 = true ->
        _id d1 = _id d2 -> message d1 = message d2 ->
        dedicatedTo d1 = dedicatedTo d2 -> createdAt d1 = createdAt d2 ->
        getPublicInfo formatCurrency d1 = getPublicInfo formatCurrency d2).
Proof.
  split; [| split].
  - intros d H. unfold getPublicInfo. cbn. rewrite H. auto.
  - intros d a u H. unfold getPublicInfo. cbn. rewrite H. reflexivity.
  - intros d1 d2 H1 H2 Hid Hm Hd Hc. unfold getPublicInfo.
    rewrite H1, H2, Hid, Hm, Hd, Hc. reflexivity.
Qed.
End PublicInfoFacts.

Lemma getPublicInfo_anonymous_hides_amount_and_donor_witness :
  isAnonymous anonymous42 = true
  /\ public_amount (getPublicInfo format_code_and_units anonymous42) = None
  /\ public_donor (getPublicInfo format_code_and_units anonymous42) = Anonymous_literal
  /\ getPublicInfo format_code_and_units (with_amount_and_donor 5 (Some 8%N) anonymous42)
     = getPublicInfo format_code_and_units anonymous42.
Proof.
  destruct (getPublicInfo_anonymous_hides_amount_and_donor format_code_and_units)
    as (Hhide & Hsame & _).
  destruct (Hhide anonymous42 eq_refl) as (Ha & _ & Hd).
  split; [reflexivity | split; [exact Ha | split; [exact Hd |]]].
  exact (Hsame anonymous42 5 (Some 8%N) eq_refl).
Defined.

(** A donation that is not anonymous shows its amount and its donor. *)
Example getPublicInfo_named_donation :
  public_amount (getPublicInfo format_code_and_units donation42) = Some 100
  /\ public_formattedAmount (getPublicInfo format_code_and_units donation42)
     = Some "USD 100"
  /\ public_donor (getPublicInfo format_code_and_units donation42) = Donor_ref (Some 7%N).
Proof. repeat split; vm_compute; reflexivity. Qed.

(** ** The scenarios are well-formed stores *)

Lemma wf_store_check (st : Store) : bool_decide (wf_store st) = true -> wf_store st.
Proof. apply bool_decide_eq_true_1. Qed.


Lemma wf_store1 : wf_store store1.
Proof. apply wf_store_check. vm_compute. reflexivity. Qed.

(** ** Running programs *)

Lemma run_bind {A B : Type} (env : Env) (p : Prog A) (f : A -> Prog B) (st : Store) :
  run env (p ≫= f) st =
  match run env p st with
  | (st', Ok a) => run env (f a) st'
  | (st', Err e) => (st', Err e)
  end.
Proof.
  revert st. induction p as [a | e | id k IH | d k IH | id k IH | id upd k IH | id upd k IH];
    intros st; cbn; try reflexivity; try apply IH.
  destruct (index_admits _ _ _); [apply IH | reflexivity].
Qed.



(** ** The pre-save hook and the unique index *)

(** The hook has two tests; a field it does not assign is the same in the
    four cases. *)
Ltac pre_save_cases := unfold pre_save; repeat (case_match; cbn); reflexivity.

Lemma pre_save_id env d : _id (pre_save env d) = _id d.
Proof. pre_save_cases. Qed.

Lemma pre_save_status env d : status (pre_save env d) = status d.
Proof. pre_save_cases. Qed.

Lemma pre_save_amount env d : amount (pre_save env d) = amount d.
Proof. pre_save_cases. Qed.

Lemma pre_save_campaign env d : campaign (pre_save env d) = campaign d.
Proof. pre_save_cases. Qed.

Lemma pre_save_donor env d : donor (pre_save env d) = donor d.
Proof. pre_save_cases. Qed.


(** A receipt number that is there is kept... *)
Lemma pre_save_keeps_receipt env d :
  receiptNumber (receipt d) <> "" ->
  receiptNumber (receipt (pre_save env d)) = receiptNumber (receipt d).
Proof.
  intros H. unfold pre_save.
  destruct (String.eqb_spec (receiptNumber (receipt d)) "") as [E | _];
    [contradiction |].
  repeat (case_match; cbn); reflexivity.
Qed.


Lemma generateReceiptNumber_nonempty env : generateReceiptNumber env <> "".
Proof. unfold generateReceiptNumber. cbn. discriminate. Qed.


Lemma receipts_unique_lookup (m : gmap N Donation) :
  receipts_unique m <->
  (forall (i j : N) (d d' : Donation),
      m !! i = Some d -> m !! j = Some d' ->
      receiptNumber (receipt d') = receiptNumber (receipt d) -> i = j).
Proof.
  unfold receipts_unique. split.
  - intros H i j d d' Hi Hj E.
    destruct (H i d Hi j d' Hj) as [-> | NE]; [reflexivity | contradiction].
  - intros H i d Hi j d' Hj.
    destruct (decide (receiptNumber (receipt d') = receiptNumber (receipt d))) as [E | NE].
    + left. exact (H i j d d' Hi Hj E).
    + right. exact NE.
Qed.

Lemma index_admits_true (r : string) (self : N) (m : gmap N Donation) :
  index_admits r self m = true <->
  (forall (j : N) (d' : Donation),
      m !! j = Some d' -> receiptNumber (receipt d') = r -> j = self).
Proof.
  unfold index_admits. rewrite bool_decide_eq_true. split.
  - intros H j d' Hj E. destruct (H j d' Hj) as [-> | NE]; [reflexivity | contradiction].
  - intros H j d' Hj.
    destruct (decide (receiptNumber (receipt d') = r)) as [E | NE].
    + left. exact (H j d' Hj E).
    + right. exact NE.
Qed.

(** A document that was read from the store and kept its receipt number is
    admitted by the index when it is saved. *)
Lemma index_admits_loaded (env : Env) (st : Store) (d0 d : Donation) :
  wf_store st ->
  donations st !! _id d0 = Some d0 ->
  _id d = _id d0 -> receipt d = receipt d0 ->
  index_admits (receiptNumber (receipt (pre_save env d))) (_id (pre_save env d))
    (donations st) = true.
Proof.
  intros (Hk & Hp & Hu) H0 Hid Hr.
  rewrite pre_save_id, pre_save_keeps_receipt, Hid, Hr.
  - apply index_admits_true. intros j d' Hj E.
    symmetry. apply (proj1 (receipts_unique_lookup _) Hu _ _ _ _ H0 Hj E).
  - rewrite Hr. exact (Hp _ _ H0).
Qed.




(** ** What each operation does to the store *)

Lemma run_save (env : Env) (d : Donation) (st : Store) :
  run env (save d) st =
  if index_admits (receiptNumber (receipt (pre_save env d))) (_id (pre_save env d))
       (donations st)
  then (write_donation (pre_save env d) st, Ok (pre_save env d))
  else (st, Err (DuplicateKey (receiptNumber (receipt (pre_save env d))))).
Proof. reflexivity. Qed.

Lemma status_update_document_fields env req d :
  _id (status_update_document env req d) = _id d
  /\ receipt (status_update_document env req d) = receipt d
  /\ campaign (status_update_document env req d) = campaign d
  /\ amount (status_update_document env req d) = amount d
  /\ donor (status_update_document env req d) = donor d
  /\ netAmount (status_update_document env req d) = netAmount d
  /\ status (status_update_document env req d) = body_status req.
Proof.
  unfold status_update_document.
  destruct (truthy (body_paymentIntentId req)), (truthy (body_transactionId req)),
    (bool_decide (body_status req = completed)); cbn; repeat split; reflexivity.
Qed.

Lemma run_updateDonationStatus_found env req st d :
  donations st !! status_id req = Some d ->
  run env (updateDonationStatus env req) st =
  run env (save (status_update_document env req d))
    (if bool_decide (body_status req = completed)
     then write_user (donor d) (inc_user_totals (amount d) 1)
            (write_campaign (campaign d) (inc_currentAmount (amount d)) st)
     else st).
Proof.
  intros Hd. unfold updateDonationStatus. cbn. rewrite Hd.
  fold (status_update_document env req d).
  destruct (status_update_document_fields env req d) as (_ & _ & Hc & Ha & Ho & _).
  destruct (bool_decide (body_status req = completed)); cbn; [| reflexivity].
  rewrite Hc, Ha, Ho. destruct (donor d); reflexivity.
Qed.

Lemma run_updateDonationStatus_missing env req st :
  donations st !! status_id req = None ->
  run env (updateDonationStatus env req) st = (st, Err (AppError "Donation not found" 404)).
Proof. intros Hd. unfold updateDonationStatus. cbn. rewrite Hd. reflexivity. Qed.

Lemma raised_write_campaign (st : Store) (cid : N) (c : Campaign) (x : Q) :
  campaigns st !! cid = Some c ->
  raised (write_campaign cid (inc_currentAmount x) st) cid = currentAmount c + x.
Proof.
  intros Hc. unfold raised, write_campaign. cbn.
  rewrite lookup_alter_eq, Hc. reflexivity.
Qed.

Lemma campaigns_write_user (id : option N) (upd : User -> User) (st : Store) :
  campaigns (write_user id upd st) = campaigns st.
Proof. destruct id; reflexivity. Qed.

Lemma donations_write_user (id : option N) (upd : User -> User) (st : Store) :
  donations (write_user id upd st) = donations st.
Proof. destruct id; reflexivity. Qed.

Lemma campaigns_run_save (env : Env) (d : Donation) (st : Store) :
  campaigns (fst (run env (save d) st)) = campaigns st.
Proof. rewrite run_save. destruct (index_admits _ _ _); reflexivity. Qed.

Lemma users_run_save (env : Env) (d : Donation) (st : Store) :
  users (fst (run env (save d) st)) = users st.
Proof. rewrite run_save. destruct (index_admits _ _ _); reflexivity. Qed.

(** After a save, a donation that was in the store is still there, with the
    gross amount, campaign and donor of the saved document or its own. *)
Lemma donation_after_save (env : Env) (doc d : Donation) (st : Store) (i : N) :
  donations st !! i = Some d ->
  amount doc = amount d -> campaign doc = campaign d -> donor doc = donor d ->
  exists d1 : Donation,
    donations (fst (run env (save doc) st)) !! i = Some d1
    /\ amount d1 = amount d /\ campaign d1 = campaign d /\ donor d1 = donor d.
Proof.
  intros Hd Ha Hc Ho. rewrite run_save.
  destruct (index_admits _ _ _); cbn.
  - destruct (decide (_id (pre_save env doc) = i)) as [E | NE].
    + exists (pre_save env doc). rewrite E, lookup_insert_eq.
      rewrite pre_save_amount, pre_save_campaign, pre_save_donor. auto.
    + exists d. rewrite lookup_insert_ne by exact NE. auto.
  - exists d. auto.
Qed.

(** updateDonationStatus with status completed adds the gross amount to
    the campaign, whether or not the save that follows is admitted. *)
Lemma updateDonationStatus_credits_gross env req st d c :
  donations st !! status_id req = Some d ->
  campaigns st !! campaign d = Some c ->
  body_status req = completed ->
  raised (fst (run env (updateDonationStatus env req) st)) (campaign d)
  = currentAmount c + amount d.
Proof.
  intros Hd Hc Hs. rewrite (run_updateDonationStatus_found env req st d Hd).
  rewrite (bool_decide_eq_true_2 _ Hs). unfold raised.
  rewrite campaigns_run_save, campaigns_write_user.
  apply (raised_write_campaign st (campaign d) c (amount d) Hc).
Qed.

Lemma run_markAsCompleted env this st :
  run env (markAsCompleted env this) st =
  run env (save (set_status completed this))
    (write_user (donor this) (inc_user_stats (amount this) 1 (Some (now env)))
       (write_campaign (campaign this) (inc_currentAmount (netAmount this)) st)).
Proof. reflexivity. Qed.

Lemma run_processRefund env this amount reason refundedBy st :
  run env (processRefund env this amount reason refundedBy) st =
  run env (save (refund_document env this amount reason refundedBy))
    (write_user (donor this) (inc_user_stats (- amount) (-1) None)
       (write_campaign (campaign this) (inc_currentAmount (- amount)) st)).
Proof. reflexivity. Qed.

(** markAsCompleted adds the net amount. *)
Lemma markAsCompleted_credits_net env this st c :
  campaigns st !! campaign this = Some c ->
  raised (fst (run env (markAsCompleted env this) st)) (campaign this)
  = currentAmount c + netAmount this.
Proof.
  intros Hc. rewrite run_markAsCompleted. unfold raised. rewrite campaigns_run_save, campaigns_write_user.
  apply (raised_write_campaign st (campaign this) c (netAmount this) Hc).
Qed.

(** ** Completion *)

(** C1 (the controller credits the gross amount): scenario 1 run on the
    code.  The donation of 100.00 by card is created with fees 2.50 and
    3.20 and net amount 94.30; completing it through updateDonationStatus
    raises the campaign from 500 to 600, that is by the gross 100.00 and
    not by the net 94.30, while markAsCompleted on the same document would
    raise it by 94.30. *)
Theorem updateDonationStatus_scenario1_credits_100 :
  (exists d : Donation,
      donations store_created !! 43%N = Some d
      /\ status d = pending
      /\ fees d = mkFees 2.50 3.20 5.70 /\ netAmount d = 94.30
      /\ raised (fst (run env0 (markAsCompleted env0 d) store_created)) 1
         - raised store_created 1 == 94.30)
  /\ status_of (fst (run env0 (updateDonationStatus env0 complete43) store_created)) 43
     = Some completed
  /\ raised (fst (run env0 (updateDonationStatus env0 complete43) store_created)) 1
     - raised store_created 1 == 100
  /\ ~ raised (fst (run env0 (updateDonationStatus env0 complete43) store_created)) 1
       - raised store_created 1 == 94.30.
Proof.
  split; [| split; [| split]].
  - eexists. split; [vm_compute; reflexivity |].
    repeat split; vm_compute; reflexivity.
  - vm_compute. reflexivity.
  - vm_compute. reflexivity.
  - vm_compute. discriminate.
Qed.

(** C2, as stated, fails: the payment event of donation 43 delivered twice
    with the same payment reference raises the campaign by 200.00; the
    second delivery changes the store again, and the two together amount
    to neither one net amount (94.30) nor one gross amount. *)
Lemma completion_twice_credits_twice_in_scenario1 :
  let st1 := fst (run env0 (updateDonationStatus env0 complete43) store_created) in
  let st2 := fst (run env0 (updateDonationStatus env0 complete43) st1) in
  status_of st1 43 = Some completed
  /\ raised st1 1 - raised store_created 1 == 100
  /\ raised st2 1 - raised store_created 1 == 200
  /\ ~ raised st2 1 - raised store_created 1 == 94.30
  /\ campaigns st2 <> campaigns st1.
Proof.
  cbv zeta. repeat split; try (vm_compute; reflexivity).
  - vm_compute. discriminate.
  - intros E. apply (f_equal (fun m => m !! 1%N)) in E. vm_compute in E. discriminate.
Qed.

(** C2 (amended): completion is not idempotent.  updateDonationStatus with
    status completed adds the gross amount to the campaign each time it is
    applied, so two applications with the same payment reference add it
    twice; markAsCompleted adds the net amount to the campaign, and the
    gross amount and one donation to the donor's statistics, for a document
    in any status, a completed one included. *)
Theorem completion_is_applied_again_on_redelivery
    (env : Env) (req : StatusRequest) (st : Store) (d : Donation) (c : Campaign) :
  donations st !! status_id req = Some d ->
  campaigns st !! campaign d = Some c ->
  body_status req = completed ->
  (let st1 := fst (run env (updateDonationStatus env req) st) in
   let st2 := fst (run env (updateDonationStatus env req) st1) in
   raised st1 (campaign d) = currentAmount c + amount d
   /\ raised st2 (campaign d) = currentAmount c + amount d + amount d)
  /\ (forall this : Donation,
        campaign this = campaign d ->
        raised (fst (run env (markAsCompleted env this) st)) (campaign d)
        = currentAmount c + netAmount this)
  /\ (forall (this : Donation) (u : N) (usr : User),
        donor this = Some u -> users st !! u = Some usr ->
        donationStats <$> users (fst (run env (markAsCompleted env this) st)) !! u
        = Some (mkDonationStats
                  (stats_totalDonated (donationStats usr) + amount this)
                  (stats_donationCount (donationStats usr) + 1)
                  (Some (now env)))).
Proof.
  intros Hd Hc Hs. split; [| split].
  - cbv zeta.
    pose proof (updateDonationStatus_credits_gross env req st d c Hd Hc Hs) as H1.
    split; [exact H1 |].
    rewrite (run_updateDonationStatus_found env req st d Hd) in *.
    rewrite (bool_decide_eq_true_2 _ Hs) in *.
    destruct (status_update_document_fields env req d) as (_ & _ & Hc' & Ha' & Ho' & _).
    set (stw := write_user (donor d) (inc_user_totals (amount d) 1)
                  (write_campaign (campaign d) (inc_currentAmount (amount d)) st)) in *.
    assert (Hdw : donations stw !! status_id req = Some d).
    { subst stw. rewrite donations_write_user. exact Hd. }
    destruct (donation_after_save env (status_update_document env req d) d stw
                (status_id req) Hdw Ha' Hc' Ho') as (d1 & Hd1 & Ha1 & Hc1 & _).
    set (st1 := fst (run env (save _) stw)) in *.
    assert (Hcamp : exists c1, campaigns st1 !! campaign d1 = Some c1
                               /\ currentAmount c1 = currentAmount c + amount d).
    { rewrite Hc1. unfold raised in H1. destruct (campaigns st1 !! campaign d) as [c1 |] eqn:E.
      - exists c1. auto.
      - exfalso. subst st1 stw. rewrite campaigns_run_save, campaigns_write_user in E.
        unfold write_campaign in E. cbn in E. rewrite lookup_alter_eq, Hc in E.
        discriminate. }
    destruct Hcamp as (c1 & Hc1' & Hcur).
    pose proof (updateDonationStatus_credits_gross env req st1 d1 c1 Hd1 Hc1' Hs) as H2.
    rewrite Hc1, Ha1, Hcur in H2. exact H2.
  - intros this Hthis. rewrite <- Hthis in *.
    apply markAsCompleted_credits_net. exact Hc.
  - intros this u usr Ho Hu. rewrite run_markAsCompleted, users_run_save, Ho.
    cbn. rewrite lookup_alter_eq, Hu. reflexivity.
Qed.

Lemma completion_is_applied_again_on_redelivery_witness :
  donations store_created !! status_id complete43 = Some donation43
  /\ campaigns store_created !! campaign donation43 = Some campaign1
  /\ body_status complete43 = completed
  /\ raised (fst (run env0 (updateDonationStatus env0 complete43)
                    (fst (run env0 (updateDonationStatus env0 complete43) store_created))))
       (campaign donation43)
     = currentAmount campaign1 + amount donation43 + amount donation43.
Proof.
  assert (H1 : donations store_created !! status_id complete43 = Some donation43)
    by (vm_compute; reflexivity).
  assert (H2 : campaigns store_created !! campaign donation43 = Some campaign1)
    by (vm_compute; reflexivity).
  assert (H3 : body_status complete43 = completed) by reflexivity.
  split; [exact H1 | split; [exact H2 | split; [exact H3 |]]].
  exact (proj2 (proj1 (completion_is_applied_again_on_redelivery
                         env0 complete43 store_created donation43 campaign1 H1 H2 H3))).
Defined.

(** ** Refunds *)

Lemma wf_store_writes (st : Store) (cid : N) (f : Campaign -> Campaign)
    (u : option N) (g : User -> User) :
  wf_store st -> wf_store (write_user u g (write_campaign cid f st)).
Proof. intros H. destruct u; exact H. Qed.

(** Saving a document that was read from a well-formed store and kept its
    id and receipt succeeds, also after writes to the other collections. *)
Lemma run_save_loaded (env : Env) (st stw : Store) (d0 d : Donation) :
  wf_store st -> donations stw = donations st ->
  donations st !! _id d0 = Some d0 ->
  _id d = _id d0 -> receipt d = receipt d0 ->
  run env (save d) stw = (write_donation (pre_save env d) stw, Ok (pre_save env d)).
Proof.
  intros Hwf Hsame H0 Hid Hr. rewrite run_save, Hsame.
  rewrite (index_admits_loaded env st d0 d Hwf H0 Hid Hr). reflexivity.
Qed.

Lemma lookup_write_donation (d : Donation) (st : Store) :
  donations (write_donation d st) !! _id d = Some d.
Proof. unfold write_donation. cbn. apply lookup_insert_eq. Qed.


Lemma status_of_write_donation (d : Donation) (st : Store) (i : N) :
  _id d = i -> status_of (write_donation d st) i = Some (status d).
Proof.
  intros <-. unfold status_of. rewrite lookup_write_donation. reflexivity.
Qed.

Lemma raised_write_donation (d : Donation) (st : Store) (cid : N) :
  raised (write_donation d st) cid = raised st cid.
Proof. reflexivity. Qed.

Lemma raised_write_user (u : option N) (g : User -> User) (st : Store) (cid : N) :
  raised (write_user u g st) cid = raised st cid.
Proof. destruct u; reflexivity. Qed.

(** The whole effect of processRefund on a document read from the store. *)
Lemma processRefund_loaded env st this amount reason refundedBy :
  wf_store st -> donations st !! _id this = Some this ->
  run env (processRefund env this amount reason refundedBy) st =
  (write_donation (pre_save env (refund_document env this amount reason refundedBy))
     (write_user (donor this) (inc_user_stats (- amount) (-1) None)
        (write_campaign (campaign this) (inc_currentAmount (- amount)) st)),
   Ok (pre_save env (refund_document env this amount reason refundedBy))).
Proof.
  intros Hwf Hl. rewrite run_processRefund.
  apply (run_save_loaded env st _ this); try assumption; try reflexivity.
  rewrite donations_write_user. reflexivity.
Qed.

Lemma refundDonation_rejects_not_completed env req st d :
  donations st !! refund_id req = Some d ->
  status d <> completed ->
  run env (refundDonation env req) st
  = (st, Err (AppError "Only completed donations can be refunded" 400)).
Proof.
  intros Hd Hs. unfold refundDonation. cbn. rewrite Hd.
  rewrite (bool_decide_eq_false_2 _ Hs). reflexivity.
Qed.

(** The whole effect of refundDonation on a completed donation. *)
Lemma refundDonation_completed env req st d :
  wf_store st ->
  donations st !! refund_id req = Some d ->
  status d = completed ->
  let doc := pre_save env
               (set_refundNote (Some (body_reason req, now env, refund_user req))
                  (set_status refunded d)) in
  run env (refundDonation env req) st =
  (write_user (donor d) (inc_user_totals (- amount d) (-1))
     (write_campaign (campaign d) (inc_currentAmount (- amount d))
        (write_donation doc st)),
   Ok doc).
Proof.
  intros Hwf Hd Hs doc. subst doc. unfold refundDonation. cbn. rewrite Hd.
  rewrite (bool_decide_eq_true_2 _ Hs). cbn.
  pose proof (proj1 Hwf _ _ Hd) as Hid. cbn in Hid.
  assert (Hl : donations st !! _id d = Some d) by (rewrite Hid; exact Hd).
  rewrite (index_admits_loaded env st d
             (set_refundNote (Some (body_reason req, now env, refund_user req))
                (set_status refunded d)) Hwf Hl eq_refl eq_refl).
  rewrite !pre_save_campaign, !pre_save_amount, !pre_save_donor. cbn.
  destruct (donor d); reflexivity.
Qed.




(** C4, as stated, fails: a partial refund of 20.00 on the completed
    donation 42 (net amount 94.30) takes 20.00 from the campaign, and the
    donation is refunded, not completed. *)
Lemma partial_refund_marks_the_donation_refunded :
  netAmount donation42_completed = 94.30
  /\ status donation42_completed = completed
  /\ exists (st' : Store) (d' : Donation),
      run env0 (processRefund env0 donation42_completed 20 "partial" admin9) store1
      = (st', Ok d')
      /\ raised st' 1 - raised store1 1 == -20
      /\ refundAmount <$> refund d' = Some 20
      /\ status_of st' 42 = Some refunded
      /\ status_of st' 42 <> Some completed.
Proof.
  split; [reflexivity | split; [reflexivity |]].
  do 2 eexists. split; [vm_compute; reflexivity |].
  repeat split; try (vm_compute; reflexivity).
  vm_compute. discriminate.
Qed.

(** C4 (amended): a refund of amount A, not negative, through processRefund
    on a completed donation takes exactly A from the campaign's raised
    amount, and it
    always sets the status to refunded, whether or not A equals the net
    amount.  refundDonation, which takes no amount, marks a completed
    donation refunded and takes its gross amount from the campaign. *)
Theorem processRefund_reverses_the_amount_and_marks_refunded
    (env : Env) (st : Store) (this : Donation) (c : Campaign)
    (A : Q) (reason : string) (refundedBy : ObjectId) :
  wf_store st ->
  donations st !! _id this = Some this ->
  status this = completed ->
  campaigns st !! campaign this = Some c ->
  0 <= A ->
  (raised (fst (run env (processRefund env this A reason refundedBy) st)) (campaign this)
   = currentAmount c + - A
   /\ status_of (fst (run env (processRefund env this A reason refundedBy) st)) (_id this)
      = Some refunded)
  /\ (forall req : RefundRequest,
        refund_id req = _id this ->
        raised (fst (run env (refundDonation env req) st)) (campaign this)
        = currentAmount c + - amount this
        /\ status_of (fst (run env (refundDonation env req) st)) (_id this)
           = Some refunded).
Proof.
  intros Hwf Hl Hs Hc _. split.
  - rewrite (processRefund_loaded env st this A reason refundedBy Hwf Hl). cbn [fst].
    split.
    + rewrite raised_write_donation, raised_write_user.
      apply raised_write_campaign. exact Hc.
    + rewrite status_of_write_donation by (rewrite pre_save_id; reflexivity).
      rewrite pre_save_status. reflexivity.
  - intros req Hreq. rewrite <- Hreq in Hl.
    rewrite (refundDonation_completed env req st this Hwf Hl Hs). cbn [fst].
    split.
    + rewrite raised_write_user. unfold raised, write_campaign. cbn.
      rewrite lookup_alter_eq, Hc. reflexivity.
    + unfold status_of. rewrite donations_write_user.
      change (donations (write_campaign ?i ?f ?s)) with (donations s).
      fold (status_of (write_donation
        (pre_save env (set_refundNote (Some (body_reason req, now env, refund_user req))
                         (set_status refunded this))) st) (_id this)).
      rewrite status_of_write_donation by (rewrite pre_save_id; reflexivity).
      rewrite pre_save_status. reflexivity.
Qed.

Lemma processRefund_reverses_the_amount_and_marks_refunded_witness :
  wf_store store1
  /\ donations store1 !! _id donation42_completed = Some donation42_completed
  /\ status donation42_completed = completed
  /\ campaigns store1 !! campaign donation42_completed
     = Some (mkCampaign 1000 594.30 0 campaign_active true)
  /\ 0 <= 20
  /\ raised (fst (run env0 (processRefund env0 donation42_completed 20 "partial" admin9)
                    store1)) (campaign donation42_completed)
     = 594.30 + - 20
  /\ status_of (fst (run env0 (processRefund env0 donation42_completed 20 "partial" admin9)
                       store1)) (_id donation42_completed)
     = Some refunded.
Proof.
  assert (H1 : donations store1 !! _id donation42_completed = Some donation42_completed)
    by (vm_compute; reflexivity).
  assert (H2 : campaigns store1 !! campaign donation42_completed
               = Some (mkCampaign 1000 594.30 0 campaign_active true))
    by (vm_compute; reflexivity).
  assert (H3 : 0 <= 20) by (unfold Qle; simpl; lia).
  split; [exact wf_store1 | split; [exact H1 | split; [reflexivity | split;
    [exact H2 | split; [exact H3 |]]]]].
  exact (proj1 (processRefund_reverses_the_amount_and_marks_refunded env0 store1
                  donation42_completed _ 20 "partial" admin9
                  wf_store1 H1 eq_refl H2 H3)).
Defined.

(** ** Status transitions *)

(** The whole effect of updateDonationStatus on a stored donation. *)
Lemma updateDonationStatus_loaded env req st d :
  wf_store st ->
  donations st !! status_id req = Some d ->
  let stw := if bool_decide (body_status req = completed)
             then write_user (donor d) (inc_user_totals (amount d) 1)
                    (write_campaign (campaign d) (inc_currentAmount (amount d)) st)
             else st in
  run env (updateDonationStatus env req) st =
  (write_donation (pre_save env (status_update_document env req d)) stw,
   Ok (pre_save env (status_update_document env req d))).
Proof.
  intros Hwf Hd stw. rewrite (run_updateDonationStatus_found env req st d Hd).
  fold stw.
  pose proof (proj1 Hwf _ _ Hd) as Hid. cbn in Hid.
  destruct (status_update_document_fields env req d) as (Hi & Hr & _).
  apply (run_save_loaded env st stw d); try assumption.
  - subst stw. destruct (bool_decide _); [| reflexivity].
    rewrite donations_write_user. reflexivity.
  - rewrite Hid. exact Hd.
Qed.

(** C5, as stated, fails: donation 42 is completed, and a status update
    puts it back to pending. *)
Lemma completed_donation_goes_back_to_pending :
  status_of store1 42 = Some completed
  /\ exists (st' : Store) (d' : Donation),
      run env0 (updateDonationStatus env0 to_pending42) store1 = (st', Ok d')
      /\ status d' = pending
      /\ status_of st' 42 = Some pending.
Proof.
  split; [vm_compute; reflexivity |].
  do 2 eexists. split; [vm_compute; reflexivity |].
  split; vm_compute; reflexivity.
Qed.

(** C5 (amended): only the refund is guarded.  refundDonation refuses a
    donation that is not completed with the error 'Only completed donations
    can be refunded' (400) and leaves the store as it was, and it marks a
    completed donation refunded.  updateDonationStatus checks no
    transition: whatever the status of the stored donation, the requested
    status is written and the document returned, so a record may re-enter
    pending or processing; markAsFailed marks a donation failed from any
    status. *)
Theorem only_the_refund_transition_is_guarded (env : Env) (st : Store) :
  wf_store st ->
  (forall (req : StatusRequest) (d : Donation),
      donations st !! status_id req = Some d ->
      exists (st' : Store) (d' : Donation),
        run env (updateDonationStatus env req) st = (st', Ok d')
        /\ status d' = body_status req
        /\ status_of st' (status_id req) = Some (body_status req))
  /\ (forall (req : RefundRequest) (d : Donation),
        donations st !! refund_id req = Some d ->
        status d <> completed ->
        run env (refundDonation env req) st
        = (st, Err (AppError "Only completed donations can be refunded" 400)))
  /\ (forall (req : RefundRequest) (d : Donation),
        donations st !! refund_id req = Some d ->
        status d = completed ->
        exists (st' : Store) (d' : Donation),
          run env (refundDonation env req) st = (st', Ok d')
          /\ status_of st' (refund_id req) = Some refunded)
  /\ (forall (this : Donation) (reason : option string),
        donations st !! _id this = Some this ->
        exists (st' : Store) (d' : Donation),
          run env (markAsFailed this reason) st = (st', Ok d')
          /\ status_of st' (_id this) = Some failed).
Proof.
  intros Hwf. split; [| split; [| split]].
  - intros req d Hd. do 2 eexists.
    split; [apply (updateDonationStatus_loaded env req st d Hwf Hd) |].
    destruct (status_update_document_fields env req d) as (Hi & _ & _ & _ & _ & _ & Hs).
    pose proof (proj1 Hwf _ _ Hd) as Hid. cbn in Hid.
    split.
    + rewrite pre_save_status. exact Hs.
    + rewrite status_of_write_donation by (rewrite pre_save_id, Hi; exact Hid).
      rewrite pre_save_status, Hs. reflexivity.
  - intros req d. apply refundDonation_rejects_not_completed.
  - intros req d Hd Hs. do 2 eexists.
    split; [apply (refundDonation_completed env req st d Hwf Hd Hs) |].
    pose proof (proj1 Hwf _ _ Hd) as Hid. cbn in Hid.
    unfold status_of. rewrite donations_write_user.
    change (donations (write_campaign ?i ?f ?s)) with (donations s).
    fold (status_of (write_donation
      (pre_save env (set_refundNote (Some (body_reason req, now env, refund_user req))
                       (set_status refunded d))) st) (refund_id req)).
    rewrite status_of_write_donation by (rewrite pre_save_id; exact Hid).
    rewrite pre_save_status. reflexivity.
  - intros this reason Hl. do 2 eexists.
    split.
    + unfold markAsFailed.
      apply (run_save_loaded env st st this); try assumption; try reflexivity;
        destruct (truthy reason); reflexivity.
    + rewrite status_of_write_donation
        by (rewrite pre_save_id; destruct (truthy reason); reflexivity).
      rewrite pre_save_status. destruct (truthy reason); reflexivity.
Qed.

Lemma only_the_refund_transition_is_guarded_witness :
  wf_store store1
  /\ exists (st' : Store) (d' : Donation),
      run env0 (updateDonationStatus env0 to_pending42) store1 = (st', Ok d')
      /\ status d' = body_status to_pending42
      /\ status_of st' (status_id to_pending42) = Some (body_status to_pending42).
Proof.
  split; [exact wf_store1 |].
  apply (proj1 (only_the_refund_transition_is_guarded env0 store1 wf_store1)
           to_pending42 donation42_completed).
  vm_compute. reflexivity.
Defined.

(** ** Donor count *)

Lemma donors_counted_write_campaign_inc (i : N) (x : Q) (st : Store) (cid : N) :
  donors_counted (write_campaign i (inc_currentAmount x) st) cid = donors_counted st cid.
Proof.
  unfold donors_counted, write_campaign. cbn. rewrite lookup_alter.
  case_decide; [subst |]; destruct (campaigns st !! cid); reflexivity.
Qed.

Lemma donors_counted_write_user (u : option N) (g : User -> User) (st : Store) (cid : N) :
  donors_counted (write_user u g st) cid = donors_counted st cid.
Proof. destruct u; reflexivity. Qed.

Lemma donors_counted_run_save (env : Env) (d : Donation) (st : Store) (cid : N) :
  donors_counted (fst (run env (save d) st)) cid = donors_counted st cid.
Proof. unfold donors_counted. rewrite campaigns_run_save. reflexivity. Qed.

Lemma updateDonationStatus_keeps_donorCount env req st cid :
  donors_counted (fst (run env (updateDonationStatus env req) st)) cid
  = donors_counted st cid.
Proof.
  destruct (donations st !! status_id req) as [d |] eqn:Hd.
  - rewrite (run_updateDonationStatus_found env req st d Hd), donors_counted_run_save.
    destruct (bool_decide _); [| reflexivity].
    rewrite donors_counted_write_user. apply donors_counted_write_campaign_inc.
  - rewrite (run_updateDonationStatus_missing env req st Hd). reflexivity.
Qed.

Lemma markAsCompleted_keeps_donorCount env this st cid :
  donors_counted (fst (run env (markAsCompleted env this) st)) cid
  = donors_counted st cid.
Proof.
  rewrite run_markAsCompleted, donors_counted_run_save, donors_counted_write_user.
  apply donors_counted_write_campaign_inc.
Qed.

Lemma donations_store_created : donations store_created = {[ 43%N := donation43 ]}.
Proof. vm_compute. reflexivity. Qed.

(** C6, as stated, fails: donor 7 has no completed donation to campaign 1;
    completing the donor's first donation, through the controller or through
    markAsCompleted, leaves the donor count of the campaign at 0. *)
Lemma first_completion_does_not_count_the_donor :
  ~ has_completed_donation store_created 7 1
  /\ donor donation43 = Some 7%N /\ campaign donation43 = 1%N
  /\ donors_counted store_created 1 = 0%Z
  /\ status_of (fst (run env0 (updateDonationStatus env0 complete43) store_created)) 43
     = Some completed
  /\ donors_counted (fst (run env0 (updateDonationStatus env0 complete43) store_created)) 1
     = 0%Z
  /\ status_of (fst (run env0 (markAsCompleted env0 donation43) store_created)) 43
     = Some completed
  /\ donors_counted (fst (run env0 (markAsCompleted env0 donation43) store_created)) 1
     = 0%Z.
Proof.
  split.
  - intros (i & d & Hl & Hs & _). rewrite donations_store_created in Hl.
    apply lookup_singleton_Some in Hl as [_ <-]. vm_compute in Hs. discriminate.
  - repeat split; vm_compute; reflexivity.
Qed.

(** C6 (amended): completing a donation never changes the donor count of
    any campaign, be it the donor's first completed donation to the campaign
    or a later one; this holds for updateDonationStatus and for
    markAsCompleted.  The one operation that writes the donor count,
    incrementDonorCount, adds 1 at every call without looking at the
    donations, and no completion path calls it. *)
Theorem completion_never_changes_donorCount (env : Env) (st : Store) :
  (forall (req : StatusRequest) (cid : N),
      donors_counted (fst (run env (updateDonationStatus env req) st)) cid
      = donors_counted st cid)
  /\ (forall (this : Donation) (cid : N),
        donors_counted (fst (run env (markAsCompleted env this) st)) cid
        = donors_counted st cid)
  /\ (forall (cid : N) (c : Campaign),
        campaigns st !! cid = Some c ->
        donors_counted (fst (run env (incrementDonorCount cid) st)) cid
        = (donorCount c + 1)%Z
        /\ donations (fst (run env (incrementDonorCount cid) st)) = donations st).
Proof.
  split; [| split].
  - intros req cid. apply updateDonationStatus_keeps_donorCount.
  - intros this cid. apply markAsCompleted_keeps_donorCount.
  - intros cid c Hc. split; [| reflexivity].
    unfold incrementDonorCount, donors_counted. cbn.
    rewrite lookup_alter_eq, Hc. reflexivity.
Qed.

Lemma completion_never_changes_donorCount_witness :
  campaigns store_created !! 1%N = Some campaign1
  /\ donors_counted (fst (run env0 (updateDonationStatus env0 complete43) store_created)) 1
     = donors_counted store_created 1
  /\ donors_counted (fst (run env0 (incrementDonorCount 1) store_created)) 1
     = (donorCount campaign1 + 1)%Z.
Proof.
  assert (H : campaigns store_created !! 1%N = Some campaign1) by (vm_compute; reflexivity).
  split; [exact H | split].
  - exact (proj1 (completion_never_changes_donorCount env0 store_created) complete43 1%N).
  - exact (proj1 (proj2 (proj2 (completion_never_changes_donorCount env0 store_created))
                    1%N campaign1 H)).
Defined.

(** ** Receipt numbers *)

















(** ** Atomicity *)

Lemma visible_save (env : Env) (d : Donation) (st : Store) :
  visible env (save d) st =
  if index_admits (receiptNumber (receipt (pre_save env d))) (_id (pre_save env d))
       (donations st)
  then [write_donation (pre_save env d) st]
  else [].
Proof. reflexivity. Qed.






(** * Further properties *)

(** ** Rounding to cents: bounds and monotonicity *)

Lemma Math_round_bounds (x : Q) :
  x - 0.5 < inject_Z (Math_round x) /\ inject_Z (Math_round x) <= x + 0.5.
Proof.
  unfold Math_round. split.
  - pose proof (Qlt_floor (x + 0.5)) as H.
    rewrite inject_Z_plus in H. change (inject_Z 1) with 1 in H. lra.
  - apply Qfloor_le.
Qed.

Lemma round_cents_bounds (x : Q) :
  x - 0.005 < round_cents x /\ round_cents x <= x + 0.005.
Proof.
  unfold round_cents. destruct (Math_round_bounds (x * 100)) as [Hl Hu].
  set (r := inject_Z (Math_round (x * 100))) in *.
  split.
  - apply Qlt_shift_div_l; lra.
  - apply Qle_shift_div_r; lra.
Qed.

Lemma Math_round_mono (x y : Q) : x <= y -> (Math_round x <= Math_round y)%Z.
Proof. intros H. unfold Math_round. apply Qfloor_resp_le. lra. Qed.

Lemma round_cents_mono (x y : Q) : x <= y -> round_cents x <= round_cents y.
Proof.
  intros H. unfold round_cents.
  assert (Hz : (Math_round (x * 100) <= Math_round (y * 100))%Z)
    by (apply Math_round_mono; lra).
  rewrite Zle_Qle in Hz.
  unfold Qdiv. apply Qmult_le_compat_r; [exact Hz | discriminate].
Qed.

Lemma round_cents_nonneg (x : Q) : -0.005 <= x -> 0 <= round_cents x.
Proof.
  intros H. unfold round_cents.
  assert (Hz : (0 <= Math_round (x * 100))%Z).
  { unfold Math_round. change 0%Z with (Qfloor 0). apply Qfloor_resp_le. lra. }
  rewrite Zle_Qle in Hz. change (inject_Z 0) with 0 in Hz.
  apply Qle_shift_div_l; lra.
Qed.

(** ** Fee calculator: signs, bounds and monotonicity *)

Lemma platformFee_bounds (a : Q) :
  a * 0.025 - 0.005 < platformFee_of a /\ platformFee_of a <= a * 0.025 + 0.005.
Proof. unfold platformFee_of. apply round_cents_bounds. Qed.

Lemma paymentProcessingFee_upper (a : Q) (m : PaymentMethod) :
  0 <= a -> paymentProcessingFee_of a m <= a * 0.0349 + 1.
Proof.
  intros Ha. destruct m; cbn [paymentProcessingFee_of].
  - pose proof (proj2 (round_cents_bounds (a * 0.029 + 0.30))). lra.
  - pose proof (proj2 (round_cents_bounds (a * 0.0349 + 0.49))). lra.
  - lra.
  - pose proof (proj2 (round_cents_bounds (a * 0.01))). lra.
  - lra.
Qed.

Lemma paymentProcessingFee_nonneg (a : Q) (m : PaymentMethod) :
  0 <= a -> 0 <= paymentProcessingFee_of a m.
Proof.
  intros Ha. destruct m; cbn [paymentProcessingFee_of];
    try (apply round_cents_nonneg; lra); lra.
Qed.

Lemma totalFees_is_the_sum (a : Q) (m : PaymentMethod) :
  totalFees (fst (calculateFees a m))
  == platformFee (fst (calculateFees a m))
     + paymentProcessingFee (fst (calculateFees a m)).
Proof.
  unfold calculateFees. cbn [fst totalFees platformFee paymentProcessingFee].
  apply round_cents_id. apply whole_cents_plus.
  - apply round_cents_is_whole.
  - apply paymentProcessingFee_whole.
Qed.



(** X2: from 1.03 on, which covers every amount the donation routes accept
    (5 to 50000), the net amount is not negative and stays below the gross
    amount, whatever the payment method.  The lower bound of the schema, 1,
    is not enough: 1.00 by bank transfer has fees of 1.03 and a net amount
    of -0.03. *)
Theorem calculateFees_net_amount_range :
  (forall (a : Q) (m : PaymentMethod),
      1.03 <= a ->
      0 <= snd (calculateFees a m) /\ snd (calculateFees a m) < a)
  /\ snd (calculateFees 1 bank_transfer) == -0.03.
Proof.
  split; [| vm_compute; reflexivity].
  intros a m Ha.
  pose proof (totalFees_is_the_sum a m) as Hsum.
  unfold calculateFees in *. cbn [fst snd totalFees platformFee paymentProcessingFee] in *.
  destruct (platformFee_bounds a) as [Hpl Hpu].
  pose proof (paymentProcessingFee_upper a m ltac:(lra)) as Hru.
  pose proof (paymentProcessingFee_nonneg a m ltac:(lra)) as Hrl.
  set (pf := platformFee_of a) in *. set (pr := paymentProcessingFee_of a m) in *.
  set (tot := round_cents (pf + pr)) in *.
  split.
  - apply round_cents_nonneg.
    destruct m; subst pr; cbn [paymentProcessingFee_of] in *.
    + pose proof (proj2 (round_cents_bounds (a * 0.029 + 0.30))). lra.
    + pose proof (proj2 (round_cents_bounds (a * 0.0349 + 0.49))). lra.
    + lra.
    + pose proof (proj2 (round_cents_bounds (a * 0.01))). lra.
    + lra.
  - pose proof (proj2 (round_cents_bounds (a - tot))) as Hn.
    assert (Hpf : 0.03 <= pf).
    { subst pf. unfold platformFee_of.
      assert (E : round_cents (1.03 * 0.025) == 0.03) by (vm_compute; reflexivity).
      pose proof (round_cents_mono (1.03 * 0.025) (a * 0.025) ltac:(lra)). lra. }
    lra.
Qed.

Lemma calculateFees_net_amount_range_witness :
  1.03 <= 5
  /\ 0 <= snd (calculateFees 5 bank_transfer)
  /\ snd (calculateFees 5 bank_transfer) < 5.
Proof.
  assert (H : 1.03 <= 5) by lra.
  split; [exact H |].
  exact (proj1 calculateFees_net_amount_range 5 bank_transfer H).
Defined.

(** X3: fees are monotone: a larger gross amount never has a smaller
    platform fee, processing fee or total fee, for the same payment
    method. *)
Theorem calculateFees_fees_are_monotone (a b : Q) (m : PaymentMethod) :
  a <= b ->
  platformFee (fst (calculateFees a m)) <= platformFee (fst (calculateFees b m))
  /\ paymentProcessingFee (fst (calculateFees a m))
     <= paymentProcessingFee (fst (calculateFees b m))
  /\ totalFees (fst (calculateFees a m)) <= totalFees (fst (calculateFees b m)).
Proof.
  intros Hab.
  assert (Hpf : platformFee_of a <= platformFee_of b).
  { unfold platformFee_of. apply round_cents_mono. lra. }
  assert (Hpr : paymentProcessingFee_of a m <= paymentProcessingFee_of b m).
  { destruct m; cbn [paymentProcessingFee_of];
      try (apply round_cents_mono; lra); lra. }
  unfold calculateFees. cbn [fst totalFees platformFee paymentProcessingFee].
  split; [exact Hpf | split; [exact Hpr |]].
  apply round_cents_mono. lra.
Qed.

Lemma calculateFees_fees_are_monotone_witness :
  10 <= 100
  /\ totalFees (fst (calculateFees 10 paypal)) <= totalFees (fst (calculateFees 100 paypal)).
Proof.
  assert (H : 10 <= 100) by lra.
  split; [exact H |].
  exact (proj2 (proj2 (calculateFees_fees_are_monotone 10 100 paypal H))).
Defined.

(** ** The pre-save hook of Donation.ts *)

Lemma generateReceiptNumber_eqb_empty (env : Env) :
  String.eqb (generateReceiptNumber env) "" = false.
Proof.
  apply String.eqb_neq. apply generateReceiptNumber_nonempty.
Qed.

#[local] Opaque calculateFees.

(** X4: the pre-save hook is idempotent, also across requests: once a
    document went through the hook, a later pass (at another time, with
    another random draw) changes nothing; the receipt number and the fees
    of the first save stay. *)
Theorem pre_save_is_idempotent (env1 env2 : Env) (d : Donation) :
  pre_save env2 (pre_save env1 d) = pre_save env1 d.
Proof.
  destruct d as [i dn c a cur pm pi ti s an msg ded f n r rf fr ca cr rn].
  destruct r as [rno es].
  unfold pre_save. cbn [receipt receiptNumber].
  destruct (String.eqb rno "") eqn:Er; cbn [set_receiptNumber receipt receiptNumber
    fees amount paymentMethod emailSent].
  - destruct (Qeq_bool (totalFees f) 0) eqn:Ef.
    + destruct (calculateFees a pm) as [f' n'] eqn:Ec.
      cbn. rewrite generateReceiptNumber_eqb_empty. cbn.
      destruct (Qeq_bool (totalFees f') 0); [rewrite Ec |]; reflexivity.
    + cbn. rewrite generateReceiptNumber_eqb_empty. cbn. rewrite Ef. reflexivity.
  - destruct (Qeq_bool (totalFees f) 0) eqn:Ef.
    + destruct (calculateFees a pm) as [f' n'] eqn:Ec.
      cbn. rewrite Er. cbn.
      destruct (Qeq_bool (totalFees f') 0); [rewrite Ec |]; reflexivity.
    + cbn. rewrite Er. cbn. rewrite Ef. reflexivity.
Qed.

#[local] Transparent calculateFees.

(** ** Controllers: unknown ids, creation, and the round trips *)

Lemma run_refundDonation_missing env req st :
  donations st !! refund_id req = None ->
  run env (refundDonation env req) st = (st, Err (AppError "Donation not found" 404)).
Proof. intros Hd. unfold refundDonation. cbn. rewrite Hd. reflexivity. Qed.

Lemma run_getDonation env id st :
  run env (getDonation id) st =
  match donations st !! id with
  | Some d => (st, Ok d)
  | None => (st, Err (AppError "Donation not found" 404))
  end.
Proof. unfold getDonation. cbn. destruct (donations st !! id); reflexivity. Qed.

(** X5: an id that matches no donation makes getDonation,
    updateDonationStatus and refundDonation answer 'Donation not found'
    (404), and the store is left as it was: no campaign or donor is
    credited or debited for a donation that does not exist. *)
Theorem unknown_donation_is_404_and_changes_nothing
    (env : Env) (st : Store) (id : ObjectId) :
  donations st !! id = None ->
  run env (getDonation id) st = (st, Err (AppError "Donation not found" 404))
  /\ (forall req : StatusRequest,
        status_id req = id ->
        run env (updateDonationStatus env req) st
        = (st, Err (AppError "Donation not found" 404)))
  /\ (forall req : RefundRequest,
        refund_id req = id ->
        run env (refundDonation env req) st
        = (st, Err (AppError "Donation not found" 404))).
Proof.
  intros Hd. split; [| split].
  - rewrite run_getDonation, Hd. reflexivity.
  - intros req <-. apply run_updateDonationStatus_missing. exact Hd.
  - intros req <-. apply run_refundDonation_missing. exact Hd.
Qed.

Lemma unknown_donation_is_404_and_changes_nothing_witness :
  donations store0 !! 5%N = None
  /\ run env0 (updateDonationStatus env0 (mkStatusRequest 5 completed None None)) store0
     = (store0, Err (AppError "Donation not found" 404)).
Proof.
  assert (H : donations store0 !! 5%N = None) by (vm_compute; reflexivity).
  split; [exact H |].
  exact (proj1 (proj2 (unknown_donation_is_404_and_changes_nothing env0 store0 5%N H))
           (mkStatusRequest 5 completed None None) eq_refl).
Defined.

Lemma run_createDonation_cases env req st :
  run env (createDonation env req) st =
  match campaigns st !! create_campaignId req with
  | None => (st, Err (AppError "Campaign not found" 404))
  | Some c =>
      if negb (campaign_isActive c)
         || negb (bool_decide (campaign_status c = campaign_active))
      then (st, Err (AppError "Campaign is not accepting donations" 400))
      else run env (save (new_Donation env req)) st
  end.
Proof.
  unfold createDonation. cbn.
  destruct (campaigns st !! create_campaignId req) as [c |]; [| reflexivity].
  destruct (negb (campaign_isActive c) || _); reflexivity.
Qed.





Lemma lookup_write_campaign (st : Store) (i : N) (f : Campaign -> Campaign) (cid : N) :
  campaigns (write_campaign i f st) !! cid
  = if decide (i = cid) then f <$> campaigns st !! cid else campaigns st !! cid.
Proof.
  unfold write_campaign. cbn. rewrite lookup_alter.
  destruct (decide (i = cid)) as [-> |]; reflexivity.
Qed.







(** ** Campaign settings under the donation operations *)

Lemma campaign_settings_write_campaign_inc (i : N) (x : Q) (st : Store) (cid : N) :
  campaign_settings (write_campaign i (inc_currentAmount x) st) cid
  = campaign_settings st cid.
Proof.
  unfold campaign_settings. rewrite lookup_write_campaign.
  destruct (decide (i = cid)); [| reflexivity].
  destruct (campaigns st !! cid); reflexivity.
Qed.

Lemma campaign_settings_write_user (u : option N) (g : User -> User) (st : Store) (cid : N) :
  campaign_settings (write_user u g st) cid = campaign_settings st cid.
Proof. destruct u; reflexivity. Qed.

Lemma campaign_settings_run_save (env : Env) (d : Donation) (st : Store) (cid : N) :
  campaign_settings (fst (run env (save d) st)) cid = campaign_settings st cid.
Proof. unfold campaign_settings. rewrite campaigns_run_save. reflexivity. Qed.

Lemma run_refundDonation_found env req st d :
  donations st !! refund_id req = Some d ->
  status d = completed ->
  run env (refundDonation env req) st =
  let doc := set_refundNote (Some (body_reason req, now env, refund_user req))
               (set_status refunded d) in
  if index_admits (receiptNumber (receipt (pre_save env doc))) (_id (pre_save env doc))
       (donations st)
  then (write_user (donor d) (inc_user_totals (- amount d) (-1))
          (write_campaign (campaign d) (inc_currentAmount (- amount d))
             (write_donation (pre_save env doc) st)),
        Ok (pre_save env doc))
  else (st, Err (DuplicateKey (receiptNumber (receipt (pre_save env doc))))).
Proof.
  intros Hd Hs. unfold refundDonation. cbn. rewrite Hd.
  rewrite (bool_decide_eq_true_2 _ Hs). cbn.
  destruct (index_admits _ _ _); [| reflexivity].
  rewrite !pre_save_campaign, !pre_save_amount, !pre_save_donor. cbn.
  destruct (donor d); reflexivity.
Qed.

(** X10: no donation operation decides about a campaign.  Completion and
    refund, through the controllers or through the model methods, leave the
    goal, the status and the active flag of every campaign as they were:
    the increment of the raised amount does not run the campaign's own
    save hook, so a campaign whose goal is reached by a completion stays
    active. *)
Theorem donation_operations_keep_campaign_settings (env : Env) (st : Store) (cid : ObjectId) :
  (forall req : StatusRequest,
      campaign_settings (fst (run env (updateDonationStatus env req) st)) cid
      = campaign_settings st cid)
  /\ (forall req : RefundRequest,
        campaign_settings (fst (run env (refundDonation env req) st)) cid
        = campaign_settings st cid)
  /\ (forall this : Donation,
        campaign_settings (fst (run env (markAsCompleted env this) st)) cid
        = campaign_settings st cid)
  /\ (forall (this : Donation) (a : Q) (reason : string) (refundedBy : ObjectId),
        campaign_settings (fst (run env (processRefund env this a reason refundedBy) st)) cid
        = campaign_settings st cid).
Proof.
  split; [| split; [| split]].
  - intros req. destruct (donations st !! status_id req) as [d |] eqn:Hd.
    + rewrite (run_updateDonationStatus_found env req st d Hd), campaign_settings_run_save.
      destruct (bool_decide _); [| reflexivity].
      rewrite campaign_settings_write_user. apply campaign_settings_write_campaign_inc.
    + rewrite (run_updateDonationStatus_missing env req st Hd). reflexivity.
  - intros req. destruct (donations st !! refund_id req) as [d |] eqn:Hd.
    + destruct (decide (status d = completed)) as [Hs | Hs].
      * rewrite (run_refundDonation_found env req st d Hd Hs). cbv zeta.
        destruct (index_admits _ _ _); [| reflexivity]. cbn [fst].
        rewrite campaign_settings_write_user, campaign_settings_write_campaign_inc.
        reflexivity.
      * rewrite (refundDonation_rejects_not_completed env req st d Hd Hs). reflexivity.
    + rewrite (run_refundDonation_missing env req st Hd). reflexivity.
  - intros this. rewrite run_markAsCompleted, campaign_settings_run_save,
      campaign_settings_write_user.
    apply campaign_settings_write_campaign_inc.
  - intros this a reason refundedBy.
    rewrite run_processRefund, campaign_settings_run_save, campaign_settings_write_user.
    apply campaign_settings_write_campaign_inc.
Qed.

(** ** Two completions on one campaign *)





(** Scenario 2 on the code: both donations of 50.00 completed, the campaign
    with goal 80 has raised 100 and is still active. *)
Example scenario2_goal_crossed_campaign_stays_active :
  campaigns (fst (run env0 (updateDonationStatus env0 complete52)
                    (fst (run env0 (updateDonationStatus env0 complete51) store2)))) !! 2%N
  = Some (mkCampaign 80 100 0 campaign_active true).
Proof. vm_compute. reflexivity. Qed.

(** ** Campaign.ts: progress and remaining amount *)





(** ** Campaign.ts: canReceiveDonations and the save hook *)

Lemma Qle_bool_true (x y : Q) : x <= y -> Qle_bool x y = true.
Proof. apply Qle_bool_iff. Qed.

Lemma Qle_bool_false (x y : Q) : y < x -> Qle_bool x y = false.
Proof.
  intros H. destruct (Qle_bool x y) eqn:E; [| reflexivity].
  apply Qle_bool_iff in E. lra.
Qed.

(** X13: createDonation does not ask canReceiveDonations.  For a campaign
    that is active, canReceiveDonations is false as soon as the goal is
    reached or the end date is passed, and createDonation still takes the
    donation: it looks at the status and the active flag only. *)
Theorem createDonation_ignores_goal_and_end_date
    (env : Env) (req : CreateRequest) (st : Store) (this : CampaignDoc) :
  campaigns st !! create_campaignId req = Some (campaign_fields this) ->
  campaign_status (campaign_fields this) = campaign_active ->
  campaign_isActive (campaign_fields this) = true ->
  goalAmount (campaign_fields this) <= currentAmount (campaign_fields this)
  \/ isExpired env this = true ->
  canReceiveDonations env this = false
  /\ run env (createDonation env req) st = run env (save (new_Donation env req)) st.
Proof.
  intros Hc Hs Ha Hor. split.
  - unfold canReceiveDonations. destruct Hor as [Hg | He].
    + rewrite (Qle_bool_true _ _ Hg). cbn.
      destruct (bool_decide _ && negb (isExpired env this)); reflexivity.
    + rewrite He. cbn. destruct (bool_decide _); reflexivity.
  - rewrite run_createDonation_cases, Hc, Ha.
    rewrite (bool_decide_eq_true_2 _ Hs). reflexivity.
Qed.

(** Decide the tests on a known status. *)
Ltac status_tests :=
  cbn;
  repeat (first [ rewrite bool_decide_eq_true_2 by reflexivity
                | rewrite bool_decide_eq_false_2 by discriminate ];
          rewrite ?andb_false_r, ?andb_true_r;
          cbn).

(** X14: the save hook of the campaign.  It changes nothing but the status,
    and only an active status: an active campaign whose goal is reached
    becomes completed, also when it is expired as well; an active campaign
    that is expired with its goal not reached becomes cancelled; otherwise
    the status stays.  After the hook a campaign is never active with its
    goal reached or its end date passed, and the hook is idempotent. *)
Theorem campaign_pre_save_settles_the_status (env : Env) (this : CampaignDoc) :
  (campaign_status (campaign_fields this) <> campaign_active ->
   campaign_pre_save env this = this)
  /\ (campaign_status (campaign_fields this) = campaign_active ->
      goalAmount (campaign_fields this) <= currentAmount (campaign_fields this) ->
      campaign_pre_save env this = set_campaign_status campaign_completed this)
  /\ (campaign_status (campaign_fields this) = campaign_active ->
      currentAmount (campaign_fields this) < goalAmount (campaign_fields this) ->
      campaign_pre_save env this
      = if isExpired env this
        then set_campaign_status campaign_cancelled this
        else this)
  /\ (campaign_status (campaign_fields (campaign_pre_save env this)) = campaign_active ->
      currentAmount (campaign_fields this) < goalAmount (campaign_fields this)
      /\ isExpired env this = false)
  /\ campaign_pre_save env (campaign_pre_save env this) = campaign_pre_save env this.
Proof.
  destruct this as [[g cur dc s a] o e ms].
  unfold campaign_pre_save, isExpired.
  cbn [campaign_fields goalAmount currentAmount campaign_status endDate].
  split; [| split; [| split; [| split]]].
  - intros Hs.
    destruct s; try congruence; status_tests;
      destruct (Qle_bool g cur), (getTime e <? getTime (now env))%N;
      status_tests; reflexivity.
  - intros Hs Hg. subst s. rewrite (Qle_bool_true _ _ Hg). status_tests.
    destruct (getTime e <? getTime (now env))%N; status_tests; reflexivity.
  - intros Hs Hg. subst s. rewrite (Qle_bool_false _ _ Hg). status_tests.
    destruct (getTime e <? getTime (now env))%N; status_tests; reflexivity.
  - destruct (Qle_bool g cur) eqn:Eg, (getTime e <? getTime (now env))%N eqn:Ee;
      destruct s; status_tests; rewrite ?Ee; status_tests;
      try discriminate; intros _.
    split; [| reflexivity].
    destruct (Qlt_le_dec cur g) as [Hl | Hl]; [exact Hl |].
    apply Qle_bool_true in Hl. congruence.
  - destruct (Qle_bool g cur) eqn:Eg, (getTime e <? getTime (now env))%N eqn:Ee;
      destruct s; status_tests; rewrite ?Ee; status_tests;
      rewrite ?Eg, ?Ee; status_tests; rewrite ?Ee; status_tests; reflexivity.
Qed.

Lemma createDonation_ignores_goal_and_end_date_witness :
  campaigns store_nearly_there !! create_campaignId create_for_3
  = Some (campaign_fields campaign_doc1)
  /\ isExpired env_march campaign_doc1 = true
  /\ canReceiveDonations env_march campaign_doc1 = false
  /\ run env_march (createDonation env_march create_for_3) store_nearly_there
     = run env_march (save (new_Donation env_march create_for_3)) store_nearly_there.
Proof.
  assert (H1 : campaigns store_nearly_there !! create_campaignId create_for_3
               = Some (campaign_fields campaign_doc1)) by (vm_compute; reflexivity).
  assert (H2 : isExpired env_march campaign_doc1 = true) by (vm_compute; reflexivity).
  split; [exact H1 | split; [exact H2 |]].
  exact (createDonation_ignores_goal_and_end_date env_march create_for_3
           store_nearly_there campaign_doc1 H1 eq_refl eq_refl (or_intror H2)).
Defined.

Lemma campaign_pre_save_settles_the_status_witness :
  campaign_status (campaign_fields campaign_doc1) = campaign_active
  /\ currentAmount (campaign_fields campaign_doc1) < goalAmount (campaign_fields campaign_doc1)
  /\ campaign_pre_save env_march campaign_doc1
     = if isExpired env_march campaign_doc1
       then set_campaign_status campaign_cancelled campaign_doc1
       else campaign_doc1.
Proof.
  assert (H : currentAmount (campaign_fields campaign_doc1)
              < goalAmount (campaign_fields campaign_doc1)) by (cbn; lra).
  split; [reflexivity | split; [exact H |]].
  exact (proj1 (proj2 (proj2 (campaign_pre_save_settles_the_status env_march campaign_doc1)))
           eq_refl H).
Defined.

(** ** Campaign.ts: milestones *)

Lemma campaign_pre_save_milestones env this :
  milestones (campaign_pre_save env this) = milestones this.
Proof.
  unfold campaign_pre_save.
  repeat (match goal with |- context [if ?b then _ else _] => destruct b end; cbn);
    reflexivity.
Qed.

Lemma campaign_pre_save_amounts env this :
  currentAmount (campaign_fields (campaign_pre_save env this))
  = currentAmount (campaign_fields this)
  /\ goalAmount (campaign_fields (campaign_pre_save env this))
     = goalAmount (campaign_fields this)
  /\ organizer (campaign_pre_save env this) = organizer this
  /\ endDate (campaign_pre_save env this) = endDate this.
Proof.
  unfold campaign_pre_save.
  repeat (match goal with |- context [if ?b then _ else _] => destruct b end; cbn);
    repeat split; reflexivity.
Qed.

Lemma insert_milestone_perm (x : Milestone) (l : list Milestone) :
  insert_milestone x l ≡ₚ x :: l.
Proof.
  induction l as [| y l IH]; cbn; [reflexivity |].
  destruct (Qle_bool _ _); [reflexivity |].
  rewrite IH. apply perm_swap.
Qed.

Lemma sort_milestones_perm (l : list Milestone) : sort_milestones l ≡ₚ l.
Proof.
  induction l as [| x l IH]; cbn; [reflexivity |].
  rewrite insert_milestone_perm, IH. reflexivity.
Qed.

Lemma insert_milestone_HdRel (a x : Milestone) (l : list Milestone) :
  milestone_le a x -> HdRel milestone_le a l -> HdRel milestone_le a (insert_milestone x l).
Proof.
  intros Hax Hl. destruct l as [| y l]; cbn.
  - constructor. exact Hax.
  - destruct (Qle_bool _ _); constructor; [exact Hax |].
    inversion Hl; assumption.
Qed.

Lemma insert_milestone_sorted (x : Milestone) (l : list Milestone) :
  Sorted milestone_le l -> Sorted milestone_le (insert_milestone x l).
Proof.
  induction l as [| y l IH]; intros Hs; cbn.
  - repeat constructor.
  - destruct (Qle_bool (milestone_amount x) (milestone_amount y)) eqn:E.
    + constructor; [exact Hs |]. constructor. apply Qle_bool_iff. exact E.
    + inversion Hs as [| ? ? Hs' Hhd]; subst.
      constructor; [apply IH; exact Hs' |].
      apply insert_milestone_HdRel; [| exact Hhd].
      unfold milestone_le.
      destruct (Qlt_le_dec (milestone_amount y) (milestone_amount x)) as [Hlt | Hle].
      * lra.
      * apply Qle_bool_true in Hle. congruence.
Qed.

Lemma sort_milestones_sorted (l : list Milestone) : Sorted milestone_le (sort_milestones l).
Proof.
  induction l as [| x l IH]; cbn; [constructor |].
  apply insert_milestone_sorted. exact IH.
Qed.

Lemma insert_milestone_stable (k : Q) (x : Milestone) (l : list Milestone) :
  milestones_of_amount k (insert_milestone x l) = milestones_of_amount k (x :: l).
Proof.
  induction l as [| y l IH]; [reflexivity |].
  cbn [insert_milestone].
  destruct (Qle_bool (milestone_amount x) (milestone_amount y)) eqn:E; [reflexivity |].
  unfold milestones_of_amount in *. cbn [List.filter] in *. rewrite IH.
  destruct (Qeq_bool (milestone_amount y) k) eqn:Ey,
           (Qeq_bool (milestone_amount x) k) eqn:Ex; try reflexivity.
  exfalso. apply Qeq_bool_iff in Ey, Ex.
  assert (Hle : milestone_amount x <= milestone_amount y) by lra.
  apply Qle_bool_true in Hle. congruence.
Qed.

Lemma sort_milestones_stable (k : Q) (l : list Milestone) :
  milestones_of_amount k (sort_milestones l) = milestones_of_amount k l.
Proof.
  induction l as [| x l IH]; [reflexivity |].
  cbn [sort_milestones foldr]. fold (sort_milestones l).
  rewrite insert_milestone_stable.
  unfold milestones_of_amount in *. cbn [List.filter]. rewrite IH. reflexivity.
Qed.

(** X15: addMilestone leaves the milestones in ascending order of amount,
    whatever their order was; they are the earlier milestones and the new
    one, which is not achieved even when its amount is already raised;
    milestones of the same amount keep their order, the new one coming
    last among them.  Amounts, organizer and end date of the campaign are
    not touched. *)
Theorem addMilestone_sorts_the_milestones
    (env : Env) (this : CampaignDoc) (a : Q) (description : string) :
  Sorted milestone_le (milestones (addMilestone env this a description))
  /\ milestones (addMilestone env this a description)
     ≡ₚ mkMilestone a description false None :: milestones this
  /\ (forall k : Q,
        milestones_of_amount k (milestones (addMilestone env this a description))
        = (milestones_of_amount k (milestones this)
           ++ milestones_of_amount k [mkMilestone a description false None])%list)
  /\ currentAmount (campaign_fields (addMilestone env this a description))
     = currentAmount (campaign_fields this)
  /\ goalAmount (campaign_fields (addMilestone env this a description))
     = goalAmount (campaign_fields this).
Proof.
  unfold addMilestone. rewrite campaign_pre_save_milestones. cbn [milestones set_milestones].
  split; [apply sort_milestones_sorted |].
  split.
  { rewrite sort_milestones_perm. rewrite Permutation_app_comm. reflexivity. }
  split.
  { intros k. rewrite sort_milestones_stable. unfold milestones_of_amount.
    apply List.filter_app. }
  destruct (campaign_pre_save_amounts env
              (set_milestones
                 (sort_milestones
                    (milestones this ++ [mkMilestone a description false None])%list) this))
    as (Hc & Hg & _).
  split; [exact Hc | exact Hg].
Qed.

Lemma mark_milestone_checked env current m :
  milestone_checked (now env) current m (mark_milestone env current m).
Proof.
  unfold milestone_checked, mark_milestone, milestone_due.
  destruct m as [a d ach at_]. cbn.
  destruct ach; cbn.
  - split; [reflexivity | split; [reflexivity | split; [reflexivity | split]]].
    + intros H. discriminate H.
    + intros H. discriminate H.
  - destruct (Qle_bool a current) eqn:E; cbn.
    + split; [reflexivity | split; [reflexivity | split; [| split]]].
      * intros H. discriminate H.
      * intros _ Hlt. apply Qle_bool_iff in E. lra.
      * intros _ _. split; reflexivity.
    + split; [reflexivity | split; [reflexivity | split; [| split]]].
      * intros H. discriminate H.
      * intros _ _. reflexivity.
      * intros _ Hle. apply Qle_bool_true in Hle. congruence.
Qed.

Lemma mark_milestone_not_due env current m :
  milestone_due current (mark_milestone env current m) = false.
Proof.
  unfold mark_milestone, milestone_due.
  destruct m as [a d ach at_]. cbn.
  destruct ach; cbn; [reflexivity |].
  destruct (Qle_bool a current) eqn:E; cbn; [reflexivity |].
  rewrite E. reflexivity.
Qed.

Lemma not_due_up_to_date current (l : list Milestone) :
  existsb (milestone_due current) l = false <-> milestones_up_to_date current l.
Proof.
  unfold milestones_up_to_date. induction l as [| m l IH]; cbn.
  - split; [constructor | reflexivity].
  - rewrite orb_false_iff, IH. unfold milestone_due. split.
    + intros [Hm Hl]. constructor; [| exact Hl].
      intros Hle. apply Qle_bool_true in Hle. rewrite Hle, andb_true_r in Hm.
      destruct (achieved m); [reflexivity | discriminate].
    + intros H. inversion H as [| ? ? Hm Hl]; subst. split; [| exact Hl].
      destruct (achieved m) eqn:Ea; [reflexivity |]. cbn.
      destruct (Qle_bool (milestone_amount m) current) eqn:E; [| reflexivity].
      apply Qle_bool_iff in E. apply Hm in E. discriminate.
Qed.

(** X16: checkMilestones.  It saves nothing exactly when every milestone
    whose amount is raised is already achieved.  Otherwise the saved
    document has the same milestones in the same order, where an achieved
    milestone keeps its date, a milestone that is not reached stays open,
    and every open milestone that is reached is achieved at the time of
    the call; after that all reached milestones are achieved, the raised
    amount is as before, and a second call saves nothing. *)
Theorem checkMilestones_marks_what_is_reached (env : Env) (this : CampaignDoc) :
  (checkMilestones env this = None
   <-> milestones_up_to_date (currentAmount (campaign_fields this)) (milestones this))
  /\ (forall saved : CampaignDoc,
        checkMilestones env this = Some saved ->
        Forall2 (milestone_checked (now env) (currentAmount (campaign_fields this)))
          (milestones this) (milestones saved)
        /\ milestones_up_to_date (currentAmount (campaign_fields this)) (milestones saved)
        /\ currentAmount (campaign_fields saved) = currentAmount (campaign_fields this)
        /\ forall env' : Env, checkMilestones env' saved = None).
Proof.
  unfold checkMilestones. cbv zeta.
  set (current := currentAmount (campaign_fields this)).
  destruct (existsb (milestone_due current) (milestones this)) eqn:E.
  - split.
    + split; [discriminate |].
      intros H. apply not_due_up_to_date in H. congruence.
    + intros saved [= <-].
      rewrite campaign_pre_save_milestones. cbn [milestones set_milestones].
      destruct (campaign_pre_save_amounts env
                  (set_milestones (map (mark_milestone env current) (milestones this)) this))
        as (Hc & _).
      cbn [campaign_fields set_milestones] in Hc. fold current in Hc.
      assert (Hnd : existsb (milestone_due current)
                      (map (mark_milestone env current) (milestones this)) = false).
      { clear. induction (milestones this) as [| m l IH]; [reflexivity |].
        cbn. rewrite mark_milestone_not_due, IH. reflexivity. }
      split; [| split; [| split]].
      * clear. induction (milestones this) as [| m l IH]; cbn; constructor;
          [apply mark_milestone_checked | exact IH].
      * apply not_due_up_to_date. exact Hnd.
      * exact Hc.
      * intros env'. rewrite ?Hc, ?campaign_pre_save_milestones.
        cbn [milestones set_milestones campaign_fields]. fold current.
        rewrite ?Hc, Hnd. reflexivity.
  - split.
    + split; [intros _; apply not_due_up_to_date; exact E | reflexivity].
    + intros saved H. discriminate H.
Qed.

Lemma checkMilestones_marks_what_is_reached_witness :
  (exists saved : CampaignDoc,
      checkMilestones env0 campaign_doc1 = Some saved
      /\ milestones_up_to_date (currentAmount (campaign_fields campaign_doc1))
           (milestones saved)
      /\ checkMilestones env_march saved = None)
  /\ map achieved (milestones campaign_doc1) = [true; false; false]
  /\ option_map (fun s => map achieved (milestones s)) (checkMilestones env0 campaign_doc1)
     = Some [true; true; false].
Proof.
  split; [| split; vm_compute; reflexivity].
  eexists. split; [vm_compute; reflexivity |].
  match goal with
  | |- milestones_up_to_date _ (milestones ?s) /\ _ =>
      destruct (proj2 (checkMilestones_marks_what_is_reached env0 campaign_doc1) s)
        as (_ & Hup & _ & Hidem); [vm_compute; reflexivity |]
  end.
  split; [exact Hup | apply Hidem].
Defined.

(** ** Campaign.ts: days remaining *)

Lemma Qceiling_div_bounds (a b : Z) :
  (0 < b)%Z ->
  ((Qceiling (inject_Z a / inject_Z b) - 1) * b < a
   /\ a <= Qceiling (inject_Z a / inject_Z b) * b)%Z.
Proof.
  intros Hb. set (x := inject_Z a / inject_Z b).
  assert (Hbq : 0 < inject_Z b) by (rewrite Zlt_Qlt in Hb; exact Hb).
  assert (Ex : x * inject_Z b == inject_Z a) by (subst x; field; lra).
  pose proof (Qle_ceiling x) as Hu. pose proof (Qceiling_lt x) as Hl.
  split.
  - rewrite Zlt_Qlt, inject_Z_mult, <- Ex.
    apply Qmult_lt_compat_r; assumption.
  - rewrite Zle_Qle, inject_Z_mult, <- Ex.
    apply Qmult_le_compat_r; [assumption | lra].
Qed.

(** X17: daysRemaining is never negative; it is 0 exactly when the end date
    is not after now, in particular for an expired campaign; and before the
    end date it counts the days that have begun: d days remaining means
    that more than d - 1 whole days and at most d whole days are left. *)
Theorem daysRemaining_counts_begun_days (env : Env) (this : CampaignDoc) :
  (0 <= daysRemaining env this)%Z
  /\ (daysRemaining env this = 0%Z <-> (getTime (endDate this) <= getTime (now env))%N)
  /\ (isExpired env this = true -> daysRemaining env this = 0%Z)
  /\ ((getTime (now env) < getTime (endDate this))%N ->
      ((daysRemaining env this - 1) * 86400000
       < Z.of_N (getTime (endDate this)) - Z.of_N (getTime (now env))
       <= daysRemaining env this * 86400000)%Z).
Proof.
  unfold daysRemaining, isExpired. cbv zeta.
  set (diff := (Z.of_N (getTime (endDate this)) - Z.of_N (getTime (now env)))%Z).
  change (1000 * 60 * 60 * 24)%Z with 86400000%Z.
  destruct (Qceiling_div_bounds diff 86400000 ltac:(lia)) as [Hl Hu].
  set (c := Qceiling (inject_Z diff / inject_Z 86400000)) in *.
  assert (Hiff : (c <= 0 <-> diff <= 0)%Z) by lia.
  split; [lia |].
  split; [| split].
  - split; intros H; [assert (c <= 0)%Z by lia | assert (diff <= 0)%Z by lia]; lia.
  - intros H. apply N.ltb_lt in H. assert (diff <= 0)%Z by lia. lia.
  - intros H. assert (0 < diff)%Z by lia. assert (0 < c)%Z by lia.
    rewrite Z.max_l by lia. lia.
Qed.

Lemma daysRemaining_counts_begun_days_witness :
  (getTime (now env0) < getTime (endDate campaign_doc1))%N
  /\ daysRemaining env0 campaign_doc1 = 46%Z
  /\ ((daysRemaining env0 campaign_doc1 - 1) * 86400000
      < Z.of_N (getTime (endDate campaign_doc1)) - Z.of_N (getTime (now env0))
      <= daysRemaining env0 campaign_doc1 * 86400000)%Z.
Proof.
  assert (H : (getTime (now env0) < getTime (endDate campaign_doc1))%N)
    by (vm_compute; reflexivity).
  split; [exact H | split; [vm_compute; reflexivity |]].
  exact (proj2 (proj2 (proj2 (daysRemaining_counts_begun_days env0 campaign_doc1))) H).
Defined.

(** ** Listings: pages *)

Lemma page_shown_eq {A : Type} (l : list A) (lim p : Z) :
  (1 <= lim)%Z -> (1 <= p)%Z ->
  page_shown l lim p
  = take (Z.to_nat lim) (drop ((Z.to_nat p - 1) * Z.to_nat lim) l).
Proof.
  intros Hl Hp. unfold page_shown, paginate, or_default. cbn.
  destruct (lim =? 0)%Z eqn:El; [lia |].
  destruct (p =? 0)%Z eqn:Ep; [lia |].
  do 2 f_equal. rewrite Z2Nat.inj_mul, Z2Nat.inj_sub by lia. reflexivity.
Qed.

Lemma first_pages_take {A : Type} (l : list A) (lim : Z) (n : nat) :
  (1 <= lim)%Z -> first_pages l lim n = take (n * Z.to_nat lim) l.
Proof.
  intros Hl. unfold first_pages. induction n as [| n IH].
  - reflexivity.
  - rewrite seq_S, flat_map_app, IH. cbn [flat_map]. rewrite app_nil_r.
    rewrite page_shown_eq by lia.
    rewrite Nat2Z.id.
    replace (S (0 + n) - 1)%nat with n by lia.
    rewrite (take_take_drop l (n * Z.to_nat lim) (Z.to_nat lim)). f_equal. lia.
Qed.

(** X18: pages.  With a page size of at least 1 and a page number of at
    least 1, a page shows at most [limit] documents, namely those at the
    positions from (page - 1) * limit on; the number of pages in the answer
    is the least n with n * limit >= total; a page after the last is empty;
    and the pages 1 to n, one after the other, are exactly the matching
    documents in their order.  A page or a limit that is missing, not a
    number, or 0 counts as page 1 and limit 10. *)
Theorem pagination_shows_every_document_once
    {A : Type} (matching : list A) (lim p : Z) :
  (1 <= lim)%Z -> (1 <= p)%Z ->
  let answer := paginate (mkPageQuery (Some p) (Some lim)) matching in
  (Z.of_nat (length (fst answer)) <= lim)%Z
  /\ (forall i : nat,
        (Z.of_nat i < lim)%Z ->
        fst answer !! i = matching !! (Z.to_nat ((p - 1) * lim) + i)%nat)
  /\ total (snd answer) = Z.of_nat (length matching)
  /\ ((pages (snd answer) - 1) * lim < total (snd answer) <= pages (snd answer) * lim)%Z
  /\ ((pages (snd answer) < p)%Z -> fst answer = [])
  /\ first_pages matching lim (Z.to_nat (pages (snd answer))) = matching
  /\ paginate (mkPageQuery None None) matching
     = paginate (mkPageQuery (Some 1%Z) (Some 10%Z)) matching
  /\ paginate (mkPageQuery (Some 0%Z) (Some 0%Z)) matching
     = paginate (mkPageQuery (Some 1%Z) (Some 10%Z)) matching.
Proof.
  intros Hl Hp answer.
  assert (Hshown : fst answer
                   = take (Z.to_nat lim) (drop ((Z.to_nat p - 1) * Z.to_nat lim) matching))
    by (apply page_shown_eq; assumption).
  assert (Htot : total (snd answer) = Z.of_nat (length matching)) by reflexivity.
  assert (Hpages : pages (snd answer)
                   = Qceiling (inject_Z (Z.of_nat (length matching)) / inject_Z lim)).
  { subst answer. unfold paginate, or_default. cbn.
    destruct (lim =? 0)%Z eqn:El; [lia | reflexivity]. }
  destruct (Qceiling_div_bounds (Z.of_nat (length matching)) lim ltac:(lia)) as [Hlo Hhi].
  rewrite <- Hpages in Hlo, Hhi.
  split; [| split; [| split; [| split; [| split; [| split; [| split]]]]]].
  - rewrite Hshown, length_take. lia.
  - intros i Hi. rewrite Hshown, lookup_take_lt by lia. rewrite lookup_drop.
    f_equal. nia.
  - exact Htot.
  - rewrite Htot. lia.
  - intros Hlast. rewrite Hshown, drop_ge; [apply take_nil |]. nia.
  - rewrite first_pages_take by exact Hl. apply take_ge. nia.
  - reflexivity.
  - reflexivity.
Qed.

Lemma pagination_shows_every_document_once_witness :
  (1 <= 2)%Z /\ (1 <= 3)%Z
  /\ fst (paginate (mkPageQuery (Some 3%Z) (Some 2%Z)) [10; 20; 30; 40; 50]%Z) = [50%Z]
  /\ pages (snd (paginate (mkPageQuery (Some 3%Z) (Some 2%Z)) [10; 20; 30; 40; 50]%Z)) = 3%Z
  /\ first_pages [10; 20; 30; 40; 50]%Z 2
       (Z.to_nat (pages (snd (paginate (mkPageQuery (Some 3%Z) (Some 2%Z))
                                 [10; 20; 30; 40; 50]%Z))))
     = [10; 20; 30; 40; 50]%Z.
Proof.
  assert (H1 : (1 <= 2)%Z) by lia. assert (H2 : (1 <= 3)%Z) by lia.
  split; [exact H1 | split; [exact H2 | split; [reflexivity | split; [reflexivity |]]]].
  exact (proj1 (proj2 (proj2 (proj2 (proj2 (proj2
           (pagination_shows_every_document_once [10; 20; 30; 40; 50]%Z 2 3 H1 H2))))))).
Defined.

(** ** Listings: filters and order *)

Lemma insert_newest_first_perm (x : Donation) (l : list Donation) :
  insert_newest_first x l ≡ₚ x :: l.
Proof.
  induction l as [| y l IH]; cbn; [reflexivity |].
  destruct (_ <=? _)%N; [reflexivity |].
  rewrite IH. apply perm_swap.
Qed.

Lemma sort_newest_first_perm (l : list Donation) : sort_newest_first l ≡ₚ l.
Proof.
  induction l as [| x l IH]; cbn; [reflexivity |].
  rewrite insert_newest_first_perm, IH. reflexivity.
Qed.

Lemma insert_newest_first_sorted (x : Donation) (l : list Donation) :
  Sorted newer_or_same l -> Sorted newer_or_same (insert_newest_first x l).
Proof.
  induction l as [| y l IH]; intros Hs; cbn.
  - repeat constructor.
  - destruct (getTime (createdAt y) <=? getTime (createdAt x))%N eqn:E.
    + constructor; [exact Hs |]. constructor. apply N.leb_le. exact E.
    + inversion Hs as [| ? ? Hs' Hhd]; subst.
      constructor; [apply IH; exact Hs' |].
      apply N.leb_gt in E.
      destruct l as [| z l]; cbn.
      * constructor. unfold newer_or_same. lia.
      * destruct (_ <=? _)%N; constructor.
        -- unfold newer_or_same. lia.
        -- inversion Hhd; assumption.
Qed.

Lemma sort_newest_first_sorted (l : list Donation) :
  Sorted newer_or_same (sort_newest_first l).
Proof.
  induction l as [| x l IH]; cbn; [constructor |].
  apply insert_newest_first_sorted. exact IH.
Qed.

Lemma elem_of_Donation_find (f : DonationFilter) (st : Store) (d : Donation) :
  d ∈ Donation_find f st <-> stored st d /\ matches f d = true.
Proof.
  unfold Donation_find. rewrite sort_newest_first_perm.
  rewrite list_elem_of_In, filter_In, <- list_elem_of_In, list_elem_of_fmap.
  unfold stored. split.
  - intros [([i d'] & -> & Hin) Hm]. split; [| exact Hm].
    exists i. apply elem_of_map_to_list. exact Hin.
  - intros [[i Hi] Hm]. split; [| exact Hm].
    exists (i, d). split; [reflexivity |]. apply elem_of_map_to_list. exact Hi.
Qed.

Lemma elem_of_take_drop {A : Type} (x : A) (l : list A) (n m : nat) :
  x ∈ take n (drop m l) -> x ∈ l.
Proof.
  intros H. apply list_elem_of_lookup in H as [i Hi].
  apply lookup_take_Some in Hi as [Hi _]. rewrite lookup_drop in Hi.
  apply list_elem_of_lookup. eauto.
Qed.

Lemma elem_of_paginate {A : Type} (q : PageQuery) (l : list A) (x : A) :
  x ∈ fst (paginate q l) -> x ∈ l.
Proof. unfold paginate. cbn. apply elem_of_take_drop. Qed.

Lemma Sorted_take_drop {A : Type} (R : A -> A -> Prop) (l : list A) (n m : nat) :
  Sorted R l -> Sorted R (take n (drop m l)).
Proof.
  intros H.
  assert (Hd : Sorted R (drop m l)).
  { clear n. revert l H. induction m as [| m IH]; intros l H; [exact H |].
    destruct l as [| x l]; [constructor |]. cbn. apply IH.
    inversion H; assumption. }
  revert Hd. generalize (drop m l). clear. intros l. revert n.
  induction l as [| x l IH]; intros n H; destruct n; cbn; try constructor.
  - apply IH. inversion H; assumption.
  - inversion H as [| ? ? Hs Hh]; subst.
    destruct l, n; cbn; constructor. inversion Hh; assumption.
Qed.

(** X19: what getDonations lists.  Every donation on a page is stored and
    meets each criterion of the query: the campaign, the donor and the
    status asked for, and a creation time within the dates; a page is in
    the order newest first; and a stored donation that meets the criteria
    is on one of the pages. *)
Theorem getDonations_lists_what_matches (req : ListRequest) (st : Store) :
  searchValidation (list_paging req) = true ->
  (forall d : Donation,
      d ∈ fst (getDonations req st) ->
      stored st d
      /\ (forall c, list_campaign req = Some c -> campaign d = c)
      /\ (forall u, list_donor req = Some u -> donor d = Some u)
      /\ (forall s, list_status req = Some s -> status d = s)
      /\ (forall t, list_startDate req = Some t ->
                    (getTime t <= getTime (createdAt d))%N)
      /\ (forall t, list_endDate req = Some t ->
                    (getTime (createdAt d) <= getTime t)%N))
  /\ Sorted newer_or_same (fst (getDonations req st))
  /\ (forall (d : Donation) (lim : Z),
        (1 <= lim <= 100)%Z ->
        stored st d ->
        matches (mkDonationFilter (list_campaign req) (list_donor req) (list_status req)
                   None (list_startDate req) (list_endDate req)) d = true ->
        exists p : Z,
          (1 <= p)%Z
          /\ d ∈ fst (getDonations
                        (mkListRequest (mkPageQuery (Some p) (Some lim))
                           (list_campaign req) (list_donor req) (list_status req)
                           (list_startDate req) (list_endDate req)) st)).
Proof.
  intros _.
  unfold getDonations. cbv zeta. cbn [list_paging list_campaign list_donor list_status
    list_startDate list_endDate].
  set (flt := mkDonationFilter (list_campaign req) (list_donor req) (list_status req)
                None (list_startDate req) (list_endDate req)).
  split; [| split].
  - intros d Hd. apply elem_of_paginate, elem_of_Donation_find in Hd as [Hst Hm].
    split; [exact Hst |].
    unfold matches, flt in Hm. cbn in Hm.
    repeat (apply andb_prop in Hm as [Hm ?]).
    repeat split.
    + intros c E. rewrite E in Hm. cbn in Hm. apply bool_decide_eq_true_1 in Hm. exact Hm.
    + intros u E. rewrite E in H3. cbn in H3. apply bool_decide_eq_true_1 in H3. exact H3.
    + intros s E. rewrite E in H2. cbn in H2. apply bool_decide_eq_true_1 in H2. exact H2.
    + intros t E. rewrite E in H0. cbn in H0. apply N.leb_le in H0. exact H0.
    + intros t E. rewrite E in H. cbn in H. apply N.leb_le in H. exact H.
  - unfold paginate. cbn. apply Sorted_take_drop, sort_newest_first_sorted.
  - intros d lim Hl Hst Hm.
    assert (Hin : d ∈ Donation_find flt st) by (apply elem_of_Donation_find; auto).
    apply list_elem_of_lookup in Hin as [i Hi].
    exists (Z.of_nat (i / Z.to_nat lim) + 1)%Z. split; [lia |].
    fold (page_shown (Donation_find flt st) lim (Z.of_nat (i / Z.to_nat lim) + 1)).
    rewrite page_shown_eq by lia.
    apply list_elem_of_lookup. exists (i mod Z.to_nat lim)%nat.
    rewrite lookup_take_lt by (apply Nat.mod_upper_bound; lia).
    rewrite lookup_drop, <- Hi. f_equal.
    replace (Z.to_nat (Z.of_nat (i / Z.to_nat lim) + 1) - 1)%nat
      with (i / Z.to_nat lim)%nat by lia.
    rewrite (Nat.div_mod_eq i (Z.to_nat lim)) at 3. lia.
Qed.

Lemma pagination_total {A : Type} (q : PageQuery) (l : list A) :
  total (snd (paginate q l)) = Z.of_nat (length l).
Proof. reflexivity. Qed.

Lemma matches_completed_of (cid : ObjectId) (anon : option bool) (d : Donation) :
  matches (completed_of cid anon) d = true <->
  campaign d = cid /\ status d = completed
  /\ (forall b, anon = Some b -> isAnonymous d = b).
Proof.
  unfold matches, completed_of. cbn.
  rewrite !andb_true_r, !andb_true_iff, !bool_decide_eq_true.
  destruct anon as [b |]; cbn.
  - rewrite bool_decide_eq_true. split.
    + intros [[Hc Hs] Ha]. repeat split; auto. intros b' [= <-]. exact Ha.
    + intros (Hc & Hs & Ha). repeat split; auto.
  - split.
    + intros [[Hc Hs] _]. repeat split; auto. discriminate.
    + intros (Hc & Hs & _). repeat split; auto.
Qed.

Lemma matches_completed_of_eq (cid : ObjectId) (anon : option bool) (d : Donation) :
  matches (completed_of cid anon) d
  = bool_decide (campaign d = cid) && bool_decide (status d = completed)
    && match anon with Some b => bool_decide (isAnonymous d = b) | None => true end.
Proof.
  unfold matches, completed_of. cbn. rewrite !andb_true_r.
  destruct anon; reflexivity.
Qed.

Lemma filter_anonymous_split (cid : ObjectId) (l : list Donation) :
  length (List.filter (matches (completed_of cid None)) l)
  = (length (List.filter (matches (completed_of cid (Some false))) l)
     + length (List.filter (matches (completed_of cid (Some true))) l))%nat.
Proof.
  induction l as [| d l IH]; [reflexivity |].
  cbn [List.filter]. rewrite !matches_completed_of_eq.
  destruct (bool_decide (campaign d = cid)); cbn [andb]; [| exact IH].
  destruct (bool_decide (status d = completed)); cbn [andb]; [| exact IH].
  destruct (isAnonymous d).
  - rewrite (bool_decide_eq_false_2 (true = false)) by discriminate.
    rewrite (bool_decide_eq_true_2 (true = true)) by reflexivity.
    cbn [length]. rewrite IH. lia.
  - rewrite (bool_decide_eq_true_2 (false = false)) by reflexivity.
    rewrite (bool_decide_eq_false_2 (false = true)) by discriminate.
    cbn [length]. rewrite IH. lia.
Qed.

Lemma length_Donation_find (f : DonationFilter) (st : Store) :
  length (Donation_find f st)
  = length (List.filter (matches f) (snd <$> map_to_list (donations st))).
Proof. unfold Donation_find. rewrite sort_newest_first_perm. reflexivity. Qed.

Lemma summarize_count (l : list Donation) :
  summary_donationCount (summarize l) = Z.of_nat (length l).
Proof. destruct l; reflexivity. Qed.


(** X20: who sees what in getCampaignDonations.  An unknown campaign is
    answered with 404.  To a requester who is not the organizer of the
    campaign, logged in or not, the pages list completed donations of this
    campaign that are not anonymous, and nothing else; the summary in the
    same answer counts the anonymous ones as well: its donationCount is
    the total of the listing plus the number of anonymous completed
    donations of the campaign.  To the organizer the listing has them
    all: total and donationCount agree. *)
Theorem getCampaignDonations_hides_anonymous_donations_from_the_listing_only
    (cid : ObjectId) (user : option ObjectId) (q : PageQuery)
    (campaign_docs : gmap N CampaignDoc) (st : Store) :
  searchValidation q = true ->
  (campaign_docs !! cid = None ->
     getCampaignDonations cid user q campaign_docs st
     = Err (AppError "Campaign not found" 404))
  /\ (forall c : CampaignDoc,
        campaign_docs !! cid = Some c ->
        exists shown sm pg,
          getCampaignDonations cid user q campaign_docs st = Ok (shown, sm, pg)
          /\ (user <> Some (organizer c) ->
                (forall d, d ∈ shown ->
                   stored st d /\ campaign d = cid /\ status d = completed
                   /\ isAnonymous d = false)
                /\ summary_donationCount sm
                   = (total pg
                      + Z.of_nat (length (Donation_find (completed_of cid (Some true)) st)))%Z)
          /\ (user = Some (organizer c) ->
                (forall d, d ∈ shown ->
                   stored st d /\ campaign d = cid /\ status d = completed)
                /\ summary_donationCount sm = total pg)).
Proof.
  intros _. split.
  - intros E. unfold getCampaignDonations. rewrite E. reflexivity.
  - intros c E. unfold getCampaignDonations. rewrite E. cbv zeta.
    fold (completed_of cid None).
    set (for_all_eyes := match user with
                         | None => true
                         | Some u => negb (bool_decide (organizer c = u))
                         end).
    assert (Heyes : for_all_eyes = true <-> user <> Some (organizer c)).
    { unfold for_all_eyes. destruct user as [u |].
      - rewrite negb_true_iff, bool_decide_eq_false. split.
        + intros H [= ->]. apply H. reflexivity.
        + intros H E'. apply H. rewrite E'. reflexivity.
      - split; [discriminate | reflexivity]. }
    fold (completed_of cid (if for_all_eyes then Some false else None)).
    destruct (paginate q (Donation_find
                (completed_of cid (if for_all_eyes then Some false else None)) st))
      as [shown pg] eqn:Ep.
    exists shown, (summarize (Donation_find (completed_of cid None) st)), pg.
    split; [reflexivity |].
    assert (Hshown : shown = fst (paginate q (Donation_find
                (completed_of cid (if for_all_eyes then Some false else None)) st)))
      by (rewrite Ep; reflexivity).
    assert (Hpg : pg = snd (paginate q (Donation_find
                (completed_of cid (if for_all_eyes then Some false else None)) st)))
      by (rewrite Ep; reflexivity).
    split.
    + intros Hu. apply Heyes in Hu. rewrite Hu in Hshown, Hpg. split.
      * intros d Hd. rewrite Hshown in Hd.
        apply elem_of_paginate, elem_of_Donation_find in Hd as [Hst Hm].
        apply matches_completed_of in Hm as (Hc & Hs & Ha).
        repeat split; auto.
      * rewrite summarize_count, Hpg, pagination_total, !length_Donation_find.
        rewrite filter_anonymous_split. lia.
    + intros Hu.
      assert (Hf : for_all_eyes = false).
      { destruct for_all_eyes; [| reflexivity].
        exfalso. apply (proj1 Heyes); [reflexivity | exact Hu]. }
      rewrite Hf in Hshown, Hpg. split.
      * intros d Hd. rewrite Hshown in Hd.
        apply elem_of_paginate, elem_of_Donation_find in Hd as [Hst Hm].
        apply matches_completed_of in Hm as (Hc & Hs & _).
        repeat split; auto.
      * rewrite summarize_count, Hpg, pagination_total. reflexivity.
Qed.

Lemma getCampaignDonations_hides_anonymous_donations_from_the_listing_only_witness :
  searchValidation (mkPageQuery None None) = true
  /\ exists shown sm pg,
       getCampaignDonations 1 (Some 7%N) (mkPageQuery None None) campaign_docs1 store_listing
       = Ok (shown, sm, pg)
       /\ (Some 7%N <> Some (organizer campaign_doc1) ->
             (forall d, d ∈ shown ->
                stored store_listing d /\ campaign d = 1%N /\ status d = completed
                /\ isAnonymous d = false)
             /\ summary_donationCount sm
                = (total pg
                   + Z.of_nat (length (Donation_find (completed_of 1 (Some true))
                                         store_listing)))%Z)
       /\ (Some 7%N = Some (organizer campaign_doc1) ->
             (forall d, d ∈ shown ->
                stored store_listing d /\ campaign d = 1%N /\ status d = completed)
             /\ summary_donationCount sm = total pg).
Proof.
  assert (Hq : searchValidation (mkPageQuery None None) = true) by reflexivity.
  assert (Hc : campaign_docs1 !! 1%N = Some campaign_doc1) by reflexivity.
  split; [exact Hq |].
  exact (proj2 (getCampaignDonations_hides_anonymous_donations_from_the_listing_only
                  1 (Some 7%N) (mkPageQuery None None) campaign_docs1 store_listing Hq)
               campaign_doc1 Hc).
Defined.

(** Campaign 1 as a visitor and as its organizer see it: the visitor is
    shown donations 63 and 61 and a summary over three donations that add
    up to 165. *)
Example getCampaignDonations_visitor_and_organizer :
  (exists sm pg,
     getCampaignDonations 1 None (mkPageQuery None None) campaign_docs1 store_listing
     = Ok ([listed 63 1 7 25 false completed 1705320000000;
            listed 61 1 7 100 false completed 1705312800000], sm, pg)
     /\ summary_donationCount sm = 3%Z
     /\ summary_totalAmount sm == 165
     /\ summary_uniqueDonorCount sm = 2%Z
     /\ total pg = 2%Z)
  /\ (exists sm pg,
        getCampaignDonations 1 (Some 3%N) (mkPageQuery None None) campaign_docs1 store_listing
        = Ok ([listed 63 1 7 25 false completed 1705320000000;
               listed 62 1 8 40 true completed 1705316400000;
               listed 61 1 7 100 false completed 1705312800000], sm, pg)
        /\ total pg = 3%Z).
Proof.
  split.
  - eexists _, _. split; [vm_compute; reflexivity |].
    split; [reflexivity | split; [reflexivity | split; reflexivity]].
  - eexists _, _. split; [vm_compute; reflexivity |]. reflexivity.
Qed.

Lemma getDonations_lists_what_matches_witness :
  searchValidation (mkPageQuery (Some 1%Z) (Some 2%Z)) = true
  /\ Sorted newer_or_same
       (fst (getDonations
               (mkListRequest (mkPageQuery (Some 1%Z) (Some 2%Z)) (Some 1%N) None
                  (Some completed) None None) store_listing)).
Proof.
  assert (Hq : searchValidation (mkPageQuery (Some 1%Z) (Some 2%Z)) = true) by reflexivity.
  split; [exact Hq |].
  exact (proj1 (proj2 (getDonations_lists_what_matches
                         (mkListRequest (mkPageQuery (Some 1%Z) (Some 2%Z)) (Some 1%N) None
                            (Some completed) None None) store_listing Hq))).
Defined.

(** ** The campaign's currentAmount and the donations behind it *)
















(** ** getRecentDonations *)

Lemma newer_or_same_trans (a b c : Donation) :
  newer_or_same a b -> newer_or_same b c -> newer_or_same a c.
Proof. unfold newer_or_same. lia. Qed.

Lemma StronglySorted_lookup {A : Type} (R : A -> A -> Prop) (l : list A) :
  StronglySorted R l ->
  forall (j i : nat) (x y : A),
    l !! j = Some x -> l !! i = Some y -> (j < i)%nat -> R x y.
Proof.
  induction 1 as [| a l Hs IH Hall]; intros j i x y Hj Hi Hlt.
  - rewrite lookup_nil in Hj. discriminate.
  - destruct i as [| i]; [lia |]. cbn in Hi.
    destruct j as [| j]; cbn in Hj.
    + injection Hj as <-.
      rewrite List.Forall_forall in Hall. apply Hall.
      apply list_elem_of_In, list_elem_of_lookup. eauto.
    + apply (IH j i x y Hj Hi). lia.
Qed.

(** X22: getRecentDonations shows the newest public donations.  With a
    limit that is absent or not negative (0 and an unreadable limit stand
    for 10), the answer has at most limit entries, each one a stored
    donation that is completed and not anonymous, newest first; and a
    stored, completed, not anonymous donation that is left out is left out
    because the answer is full of donations at least as new. *)
Theorem getRecentDonations_shows_the_newest_public_donations
    (query_limit : option Z) (st : Store) :
  (forall l : Z, query_limit = Some l -> (0 <= l)%Z) ->
  let shown := getRecentDonations query_limit st in
  (Z.of_nat (length shown) <= or_default query_limit 10)%Z
  /\ (forall d, d ∈ shown ->
        stored st d /\ status d = completed /\ isAnonymous d = false)
  /\ Sorted newer_or_same shown
  /\ (forall d', stored st d' -> status d' = completed -> isAnonymous d' = false ->
        d' ∉ shown ->
        Z.of_nat (length shown) = or_default query_limit 10
        /\ forall d, d ∈ shown -> newer_or_same d d').
Proof.
  intros Hl shown. subst shown. unfold getRecentDonations. cbv zeta.
  set (f := mkDonationFilter None None (Some completed) (Some false) None None).
  set (n := or_default query_limit 10).
  assert (Hn : (0 <= n)%Z).
  { subst n. unfold or_default. destruct query_limit as [l |]; [| lia].
    specialize (Hl l eq_refl). destruct (l =? 0)%Z; lia. }
  assert (Hm : forall d, matches f d = true <->
                         status d = completed /\ isAnonymous d = false).
  { intros d. unfold matches, f. cbn.
    rewrite !andb_true_r, andb_true_iff, !bool_decide_eq_true. reflexivity. }
  split; [| split; [| split]].
  - rewrite length_take. lia.
  - intros d Hd. apply list_elem_of_lookup in Hd as [i Hi].
    apply lookup_take_Some in Hi as [Hi _].
    assert (Hin : d ∈ Donation_find f st) by (apply list_elem_of_lookup; eauto).
    apply elem_of_Donation_find in Hin as [Hst Hmd]. apply Hm in Hmd. tauto.
  - rewrite <- (drop_0 (Donation_find f st)).
    apply Sorted_take_drop, sort_newest_first_sorted.
  - intros d' Hst Hs Ha Hout.
    assert (Hin : d' ∈ Donation_find f st).
    { apply elem_of_Donation_find. split; [exact Hst |]. apply Hm. auto. }
    apply list_elem_of_lookup in Hin as [i Hi].
    assert (Hge : (Z.to_nat n <= i)%nat).
    { destruct (decide (i < Z.to_nat n)%nat) as [Hlt |]; [| lia].
      exfalso. apply Hout. apply list_elem_of_lookup. exists i.
      rewrite lookup_take_lt by exact Hlt. exact Hi. }
    pose proof (lookup_lt_Some _ _ _ Hi) as Hlen.
    split.
    + rewrite length_take. lia.
    + intros d Hd. apply list_elem_of_lookup in Hd as [j Hj].
      apply lookup_take_Some in Hj as [Hj Hjn].
      apply (StronglySorted_lookup newer_or_same (Donation_find f st)) with (j := j) (i := i);
        try assumption; [| lia].
      apply Sorted_StronglySorted.
      * intros a b c. apply newer_or_same_trans.
      * apply sort_newest_first_sorted.
Qed.

Lemma getRecentDonations_shows_the_newest_public_donations_witness :
  (forall l : Z, Some 2%Z = Some l -> (0 <= l)%Z)
  /\ Sorted newer_or_same (getRecentDonations (Some 2%Z) store_listing).
Proof.
  assert (H : forall l : Z, Some 2%Z = Some l -> (0 <= l)%Z).
  { intros l E. injection E as <-. lia. }
  split; [exact H |].
  exact (proj1 (proj2 (proj2 (getRecentDonations_shows_the_newest_public_donations
                                (Some 2%Z) store_listing H)))).
Defined.

Example getRecentDonations_of_the_listing :
  getRecentDonations (Some 2%Z) store_listing
  = [listed 63 1 7 25 false completed 1705320000000;
     listed 61 1 7 100 false completed 1705312800000]
  /\ getRecentDonations (Some 1%Z) store_listing
     = [listed 63 1 7 25 false completed 1705320000000].
Proof. split; vm_compute; reflexivity. Qed.

(** ** The virtual feePercentage *)





Example feePercentage_donation43 : feePercentage donation43 == 5.7.
Proof. reflexivity. Qed.

Example feePercentage_bank_transfer_5 :
  feePercentage
    (pre_save env0 (new_Donation env0
       (mkCreateRequest 1 5 None None (Some bank_transfer) (Some 7%N)))) == 22.6.
Proof. reflexivity. Qed.

(** ** markAsFailed *)




(** ** getUserDonations *)





Example getUserDonations_of_donor_7 :
  exists shown pg,
    getUserDonations 7 (mkPageQuery None None) store_listing
    = (shown, mkUserSummary 125 2 (125 / 2), pg)
    /\ length shown = 2%nat.
Proof. eexists _, _. split; [vm_compute; reflexivity | reflexivity]. Qed.
